(** * Architect MCP CLI: a shallow embedding of the command-line client

    The client is a thin layer: every subcommand issues one HTTP request
    through a shared axios instance ([src/utils/api.ts]), optionally filters
    the returned collection, and renders it through the output helpers
    ([src/utils/output.ts]) or dumps it as JSON.

    The embedding follows that layering:
    - JavaScript values and the few runtime operations the client relies on
      ([JSON.stringify], [ToString], truthiness, [toFixed]);
    - the process state (environment variable, client singleton) and the
      observable trace (console lines, tables, spinner frames, requests sent)
      threaded by a small state/trace/exception monad [M];
    - the API wrapper, the spinner wrapper, and the command actions, each
      transcribed from its TypeScript source.

    Strings are byte strings holding UTF-8 text; their length and prefixes
    agree with JavaScript's on ASCII text.  Response bodies are typed as the
    [apiGet<T>] call sites type them, the server being trusted to send what
    the type says. *)

From Stdlib Require Import ZArith NArith List String Ascii Bool Lia DecimalString.
From Stdlib Require Import Permutation Sorted.
From Stdlib Require Import PrimFloat SpecFloat FloatOps FloatAxioms.
Import ListNotations.
Local Open Scope list_scope.
Local Open Scope string_scope.
Set Warnings "-register-all".

(** ** JavaScript values *)

(** A JavaScript [number] is an IEEE 754 binary64 value. *)
Definition number : Type := float.

(** Values that can reach the client: parsed JSON, [undefined], and the
    built-in functions found on [Object.prototype].  An object is the list of
    its own enumerable properties in property order. *)
Inductive value : Type :=
| VUndefined
| VNull
| VBool (b : bool)
| VNumber (n : number)
| VString (s : string)
| VFunction (name : string)
| VArray (items : list value)
| VObject (props : list (string * value)).

(** ** The JavaScript runtime and third-party libraries

    What the client takes from its platform: chalk's styling of a string,
    [Number::toString], [new Date(s).toLocaleString()] and [parseInt]. *)
Inductive Style : Type :=
| green | red | yellow | blue | dim | bold | cyan | bold_cyan | bold_white.

Class JsRuntime : Type := {
  chalk : Style -> string -> string;
  Number_toString : number -> string;
  Date_toLocaleString : string -> string;
  parseInt : string -> number
}.

(** ** Strings *)

Definition nl : string := String (ascii_of_nat 10) EmptyString.
Definition dquote : string := String (ascii_of_nat 34) EmptyString.
Definition backslash : string := String (ascii_of_nat 92) EmptyString.

(** [xs.join(sep)] on an array of strings. *)
Fixpoint join (sep : string) (xs : list string) : string :=
  match xs with
  | [] => ""
  | [x] => x
  | x :: rest => x ++ sep ++ join sep rest
  end.

(** [s.repeat(n)]. *)
Fixpoint repeat_string (s : string) (n : nat) : string :=
  match n with
  | O => ""
  | S n' => s ++ repeat_string s n'
  end.

(** [s.includes(needle)]. *)
Fixpoint includes (needle s : string) : bool :=
  if prefix needle s then true
  else match s with
       | EmptyString => false
       | String _ rest => includes needle rest
       end.

(** Decimal digits of a natural number: what [String(n)] and a template
    literal give for an array length. *)
Definition nat_to_string (n : nat) : string :=
  NilEmpty.string_of_uint (Nat.to_uint n).

(** JavaScript truthiness of a string. *)
Definition truthy_string (s : string) : bool :=
  match s with EmptyString => false | _ => true end.

(** Truthiness of a [string | undefined]. *)
Definition truthy (o : option string) : bool :=
  match o with Some s => truthy_string s | None => false end.

(** [o || d] for [o : string | undefined]. *)
Definition or_else (o : option string) (d : string) : string :=
  match o with
  | Some s => if truthy_string s then s else d
  | None => d
  end.

(** Truthiness of a number: neither zero nor NaN. *)
Definition truthy_number (n : number) : bool :=
  negb (is_zero n || is_nan n).

(** ** [JSON.stringify(data, null, 2)] *)

Definition hex_digit (n : nat) : string :=
  String.substring n 1 "0123456789abcdef".

(** One code unit inside a JSON string literal (QuoteJSONString). *)
Definition quote_char (c : ascii) : string :=
  let n := nat_of_ascii c in
  if Nat.eqb n 34 then backslash ++ dquote
  else if Nat.eqb n 92 then backslash ++ backslash
  else if Nat.eqb n 8 then backslash ++ "b"
  else if Nat.eqb n 12 then backslash ++ "f"
  else if Nat.eqb n 10 then backslash ++ "n"
  else if Nat.eqb n 13 then backslash ++ "r"
  else if Nat.eqb n 9 then backslash ++ "t"
  else if Nat.ltb n 32 then backslash ++ "u00" ++ hex_digit (n / 16) ++ hex_digit (n mod 16)
  else String c EmptyString.

Fixpoint quote_chars (s : string) : string :=
  match s with
  | EmptyString => ""
  | String c rest => quote_char c ++ quote_chars rest
  end.

Definition QuoteJSONString (s : string) : string :=
  dquote ++ quote_chars s ++ dquote.

Definition gap : string := "  ".

(** Wraps the serialized members of an array or object. *)
Definition json_block (open close indent : string) (partial : list string) : string :=
  match partial with
  | [] => open ++ close
  | _ => open ++ nl ++ (indent ++ gap)
           ++ join ("," ++ nl ++ (indent ++ gap)) partial
           ++ nl ++ indent ++ close
  end.

(** SerializeJSONProperty: [None] stands for [undefined] (the property is
    dropped from an object and printed as [null] inside an array). *)
Fixpoint SerializeJSONProperty `{JsRuntime} (indent : string) (v : value) : option string :=
  match v with
  | VUndefined => None
  | VFunction _ => None
  | VNull => Some "null"
  | VBool b => Some (if b then "true" else "false")
  | VNumber n => Some (if is_finite n then Number_toString n else "null")
  | VString s => Some (QuoteJSONString s)
  | VArray items =>
      Some (json_block "[" "]" indent
              (map (fun x => match SerializeJSONProperty (indent ++ gap) x with
                             | Some s => s
                             | None => "null"
                             end) items))
  | VObject props =>
      Some (json_block "{" "}" indent
              (flat_map (fun kv => match SerializeJSONProperty (indent ++ gap) (snd kv) with
                                   | Some s => [QuoteJSONString (fst kv) ++ ": " ++ s]
                                   | None => []
                                   end) props))
  end.

Definition JSON_stringify `{JsRuntime} (v : value) : option string :=
  SerializeJSONProperty "" v.

(** ** Coercions *)

(** Own-property lookup in a property list. *)
Fixpoint lookup {T} (d : list (string * T)) (key : string) : option T :=
  match d with
  | [] => None
  | (k, v) :: rest => if String.eqb k key then Some v else lookup rest key
  end.

(** All the strings, when none is missing. *)
Fixpoint all_some (xs : list (option string)) : option (list string) :=
  match xs with
  | [] => Some []
  | Some x :: rest =>
      match all_some rest with
      | Some l => Some (x :: l)
      | None => None
      end
  | None :: _ => None
  end.

(** [String(v)] / a template-literal hole; [None] when the conversion
    throws a [TypeError].  An object converts through its [toString]: the
    inherited one gives [[object Object]]; an own [toString] property of a
    parsed body is no function, and the inherited [valueOf] returns the
    object itself, so no primitive is reached.  An array joins the
    conversions of its elements. *)
Fixpoint ToString `{JsRuntime} (v : value) : option string :=
  match v with
  | VUndefined => Some "undefined"
  | VNull => Some "null"
  | VBool b => Some (if b then "true" else "false")
  | VNumber n => Some (Number_toString n)
  | VString s => Some s
  | VFunction name => Some ("function " ++ name ++ "() { [native code] }")
  | VArray items =>
      match all_some (map (fun x => match x with
                                    | VUndefined | VNull => Some ""
                                    | _ => ToString x
                                    end) items) with
      | Some parts => Some (join "," parts)
      | None => None
      end
  | VObject props =>
      match lookup props "toString" with
      | Some _ => None
      | None => Some "[object Object]"
      end
  end.

(** The message of the [TypeError] a failed conversion throws. *)
Definition not_primitive : string := "Cannot convert object to primitive value".

Definition ToBoolean (v : value) : bool :=
  match v with
  | VUndefined | VNull => false
  | VBool b => b
  | VNumber n => truthy_number n
  | VString s => truthy_string s
  | VFunction _ | VArray _ | VObject _ => true
  end.

(** [data?.key] for a key that no built-in prototype defines (here [error]
    and [message]): an own property of an object, [undefined] otherwise. *)
Definition optional_field (data : value) (key : string) : value :=
  match data with
  | VObject props =>
      match lookup props key with
      | Some v => v
      | None => VUndefined
      end
  | _ => VUndefined
  end.

(** ** Property order

    A [Record<string, T>] is kept as the list of its properties in the
    order received.  The object built from it enumerates the keys that are
    array indices first, in ascending numeric order, and the other keys
    after them in the order received. *)

Definition decimal_digit (c : ascii) : option N :=
  let n := nat_of_ascii c in
  if Nat.leb 48 n && Nat.leb n 57 then Some (N.of_nat (n - 48)) else None.

Fixpoint digits_value (s : string) (acc : N) : option N :=
  match s with
  | EmptyString => Some acc
  | String c rest =>
      match decimal_digit c with
      | Some dgt => digits_value rest (10 * acc + dgt)%N
      | None => None
      end
  end.

(** The index a key denotes: a canonical decimal numeral (no sign, no
    leading zero) of an integer up to 2^32 - 2. *)
Definition array_index (key : string) : option N :=
  match key with
  | EmptyString => None
  | String c rest =>
      if Nat.eqb (nat_of_ascii c) 48 && negb (String.eqb rest "") then None
      else if Nat.ltb 10 (String.length key) then None
      else match digits_value key 0 with
           | Some n => if (n <=? 4294967294)%N then Some n else None
           | None => None
           end
  end.

Fixpoint insert_indexed {T} (i : N) (kv : string * T) (l : list (string * T))
  : list (string * T) :=
  match l with
  | [] => [kv]
  | kv' :: rest =>
      match array_index (fst kv') with
      | Some j => if (i <=? j)%N then kv :: l else kv' :: insert_indexed i kv rest
      | None => kv :: l
      end
  end.

Fixpoint indexed_ascending {T} (d : list (string * T)) : list (string * T) :=
  match d with
  | [] => []
  | kv :: rest =>
      match array_index (fst kv) with
      | Some i => insert_indexed i kv (indexed_ascending rest)
      | None => indexed_ascending rest
      end
  end.

Definition is_index_key {T} (kv : string * T) : bool :=
  match array_index (fst kv) with Some _ => true | None => false end.

(** Two index keys in ascending order. *)
Definition index_le {T} (a b : string * T) : Prop :=
  match array_index (fst a), array_index (fst b) with
  | Some i, Some j => (i <= j)%N
  | _, _ => False
  end.

(** [Object.entries(data)] of a [Record<string, T>]. *)
Definition Object_entries {T} (d : list (string * T)) : list (string * T) :=
  (indexed_ascending d ++ filter (fun kv => negb (is_index_key kv)) d)%list.

(** ** Lengths

    [s.length] counts UTF-16 code units.  In UTF-8 text a continuation
    byte adds none, the lead byte of a four-byte sequence adds two (a
    surrogate pair), and any other byte adds one. *)
Fixpoint js_length (s : string) : nat :=
  match s with
  | EmptyString => 0
  | String c rest =>
      let n := nat_of_ascii c in
      (if Nat.leb 128 n && Nat.ltb n 192 then 0
       else if Nat.leb 240 n then 2
       else 1) + js_length rest
  end.

(** Text of one-byte characters only, where bytes and code units agree. *)
Fixpoint ascii_only (s : string) : bool :=
  match s with
  | EmptyString => true
  | String c rest => Nat.ltb (nat_of_ascii c) 128 && ascii_only rest
  end.

(** ** [Number.prototype.toFixed(1)]

    The tenths nearest to the exact value of the double, the larger one on a
    tie; arguments that are not finite or reach 10^21 print as
    [Number::toString] does. *)

Definition decimal_of_Z (n : Z) : string :=
  NilEmpty.string_of_uint (N.to_uint (Z.to_N n)).

(** The integer [n] for which [n / 10 - |x|] is closest to zero, for a finite [x]. *)
Definition nearest_tenths (x : number) : Z :=
  match Prim2SF x with
  | S754_finite _ m e =>
      if (0 <=? e)%Z then (10 * Z.pos m * 2 ^ e)%Z
      else ((20 * Z.pos m + 2 ^ (- e)) / (2 * 2 ^ (- e)))%Z
  | _ => 0%Z
  end.

Definition toFixed1 `{JsRuntime} (x : number) : string :=
  if negb (is_finite x) then Number_toString x
  else
    let s := if (x <? 0)%float then "-" else "" in
    let x := if (x <? 0)%float then (- x)%float else x in
    if (1e21 <=? x)%float then s ++ Number_toString x
    else
      let m := decimal_of_Z (nearest_tenths x) in
      let m := if Nat.leb (String.length m) 1 then "0" ++ m else m in
      let k := String.length m in
      s ++ String.substring 0 (k - 1) m ++ "." ++ String.substring (k - 1) 1 m.

(** ** Process state and observable trace *)

Inductive Method : Type := GET | POST | DELETE.

(** The axios instance built by [axios.create]; [instance_id] is the
    allocation stamp that tells two instances apart. *)
Record AxiosInstance : Type := {
  instance_id : nat;
  baseURL : string;
  timeout : Z;
  headers : list (string * string)
}.

(** One request handed to the axios instance. *)
Record Request : Type := {
  req_method : Method;
  req_client : AxiosInstance;
  req_url : string;
  req_params : option (list (string * value));
  req_body : option value
}.

(** Module-level and process-level state: [process.env.ARCHITECT_SERVER],
    the [client] variable of [api.ts], and the number of instances
    [axios.create] has built so far. *)
Record State : Type := {
  env_ARCHITECT_SERVER : option string;
  client : option AxiosInstance;
  created : nat
}.

Inductive Event : Type :=
| Stdout (line : string)
| Stderr (line : string)
| TableOut (head : list string) (rows : list (list string))
| SpinnerStart (text : string)
| SpinnerStop
| SpinnerFail
| Sent (r : Request).

(** How a computation ends: with a value, with a thrown exception, or by
    [process.exit(code)], which nothing catches. *)
Inductive Outcome (E A : Type) : Type :=
| Return (a : A)
| Throw (e : E)
| Exit (code : Z).
Arguments Return {E A} a.
Arguments Throw {E A} e.
Arguments Exit {E A} code.

Definition M (E A : Type) : Type := State -> Outcome E A * State * list Event.

Definition ret {E A} (a : A) : M E A := fun s => (Return a, s, []).

Definition bind {E A B} (m : M E A) (k : A -> M E B) : M E B :=
  fun s =>
    match m s with
    | (Return a, s1, t1) =>
        match k a s1 with
        | (o, s2, t2) => (o, s2, (t1 ++ t2)%list)
        end
    | (Throw e, s1, t1) => (Throw e, s1, t1)
    | (Exit c, s1, t1) => (Exit c, s1, t1)
    end.

Notation "x <- m ;; k" := (bind m (fun x => k))
  (at level 61, m at next level, right associativity).
Notation "m ;;; k" := (bind m (fun _ => k))
  (at level 61, right associativity).

Definition throw {E A} (e : E) : M E A := fun s => (Throw e, s, []).

(** [try { m } catch (err) { handler(err) }]. *)
Definition try_catch {E E' A} (m : M E A) (handler : E -> M E' A) : M E' A :=
  fun s =>
    match m s with
    | (Return a, s1, t1) => (Return a, s1, t1)
    | (Throw e, s1, t1) =>
        match handler e s1 with
        | (o, s2, t2) => (o, s2, (t1 ++ t2)%list)
        end
    | (Exit c, s1, t1) => (Exit c, s1, t1)
    end.

Definition emit {E} (ev : Event) : M E unit := fun s => (Return tt, s, [ev]).

Definition process_exit {E A} (code : Z) : M E A := fun s => (Exit code, s, []).

Definition get_state {E} : M E State := fun s => (Return s, s, []).

(** Projections of a finished run. *)
Definition outcome_of {E A} (r : Outcome E A * State * list Event) : Outcome E A := fst (fst r).
Definition state_of {E A} (r : Outcome E A * State * list Event) : State := snd (fst r).
Definition trace_of {E A} (r : Outcome E A * State * list Event) : list Event := snd r.

(** The exit code of the process once a command action has run. *)
Definition exit_code {E A} (o : Outcome E A) : Z :=
  match o with
  | Return _ => 0
  | Throw _ => 1
  | Exit c => c
  end.

Definition is_spinner (ev : Event) : bool :=
  match ev with
  | SpinnerStart _ | SpinnerStop | SpinnerFail => true
  | _ => false
  end.

Definition is_console (ev : Event) : bool :=
  match ev with
  | Stdout _ | Stderr _ | TableOut _ _ => true
  | _ => false
  end.

(** What the command printed through [console]: the trace without spinner
    frames and request records. *)
Definition printed (t : list Event) : list Event := filter is_console t.

(** The trace without the spinner's terminal output. *)
Definition without_spinner (t : list Event) : list Event :=
  filter (fun ev => negb (is_spinner ev)) t.

(** The requests sent. *)
Definition requests (t : list Event) : list Request :=
  flat_map (fun ev => match ev with Sent r => [r] | _ => [] end) t.

(** ** [src/utils/api.ts] *)

(** An [Error] object: its [message], which is what the callers read, and
    its other own properties (a [code], an [errno], ...). *)
Record JsError : Type := Error_object {
  message : string;
  own : list (string * value)
}.

(** [new Error(msg)]. *)
Definition new_Error (msg : string) : JsError :=
  {| message := msg; own := [] |}.

Module AxiosResponse.
Record t : Type := {
  status : number;
  data : value
}.
End AxiosResponse.

(** What the axios call may reject with: an [AxiosError] (its [code],
    [response] and [message]), some other [Error], or a value that is no
    [Error] at all. *)
Inductive Thrown : Type :=
| AxiosError (code : option string) (response : option AxiosResponse.t) (msg : string)
| OtherError (e : JsError)
| NonError (v : value).

(** The settled promise of one axios call whose body is typed as [T]. *)
Inductive HttpResult (T : Type) : Type :=
| Resolved (res_data : T)
| Rejected (err : Thrown).
Arguments Resolved {T} res_data.
Arguments Rejected {T} err.

(** The server and the network between it and the client. *)
Definition Transport (T : Type) : Type := Request -> HttpResult T.

Definition default_server_url : string := "http://localhost:3001".

(** The body of [getServerUrl], on the state it reads. *)
Definition server_url (s : State) : string :=
  or_else (env_ARCHITECT_SERVER s) default_server_url.

Definition getServerUrl {E} : M E string :=
  fun s => (Return (server_url s), s, []).

Definition createClient {E} : M E AxiosInstance :=
  fun s =>
    match client s with
    | Some c => (Return c, s, [])
    | None =>
        let c := {| instance_id := created s;
                    baseURL := server_url s ++ "/api";
                    timeout := 15000;
                    headers := [("Content-Type", "application/json")] |} in
        (Return c,
         {| env_ARCHITECT_SERVER := env_ARCHITECT_SERVER s;
            client := Some c;
            created := S (created s) |},
         [])
    end.

Definition resetClient {E} : M E unit :=
  fun s =>
    (Return tt,
     {| env_ARCHITECT_SERVER := env_ARCHITECT_SERVER s;
        client := None;
        created := created s |},
     []).

(** [process.env.ARCHITECT_SERVER = url], as the [--server] option does. *)
Definition set_server_env {E} (url : string) : M E unit :=
  fun s =>
    (Return tt,
     {| env_ARCHITECT_SERVER := Some url;
        client := client s;
        created := created s |},
     []).

(** [err.code === c]. *)
Definition code_is (code : option string) (c : string) : bool :=
  match code with
  | Some c' => String.eqb c' c
  | None => false
  end.

(** [a || b] on values. *)
Definition value_or (a b : value) : value :=
  if ToBoolean a then a else b.

(** How a call of [formatError] completes: it returns an [Error], or the
    conversion of its message throws one. *)
Inductive Completion : Type :=
| Returns (e : JsError)
| Throws (e : JsError).

(** [`${v}`] as the tail of a message, or the [TypeError] it throws. *)
Definition with_text `{JsRuntime} (v : value) (k : string -> JsError) : Completion :=
  match ToString v with
  | Some txt => Returns (k txt)
  | None => Throws (new_Error not_primitive)
  end.

Definition formatError `{JsRuntime} (s : State) (err : Thrown) : Completion :=
  match err with
  | AxiosError code response msg =>
      if code_is code "ECONNREFUSED" || code_is code "ECONNRESET" then
        Returns
          (new_Error ("Cannot connect to Architect server at " ++ server_url s ++ "." ++ nl
                      ++ "Make sure the server is running or set ARCHITECT_SERVER env variable."))
      else
        match response with
        | Some r =>
            let m := value_or (optional_field (AxiosResponse.data r) "error")
                       (value_or (optional_field (AxiosResponse.data r) "message")
                                 (VString msg)) in
            with_text m
              (fun txt => new_Error ("Server error ("
                                     ++ Number_toString (AxiosResponse.status r) ++ "): "
                                     ++ txt))
        | None => Returns (new_Error ("Request failed: " ++ msg))
        end
  | OtherError e => Returns e
  | NonError v => with_text v new_Error
  end.

(** The error a [throw formatError(err)] raises either way. *)
Definition thrown_by (c : Completion) : JsError :=
  match c with
  | Returns e => e
  | Throws e => e
  end.

(** The shared shape of [apiGet], [apiDelete] and [apiPost]: obtain the
    client, send one request, unwrap the body or throw the normalized error. *)
Definition request `{JsRuntime} {T} (http : Transport T) (method : Method)
    (endpoint : string) (params : option (list (string * value)))
    (body : option value) : M JsError T :=
  c <- createClient ;;
  let r := {| req_method := method; req_client := c; req_url := endpoint;
              req_params := params; req_body := body |} in
  emit (Sent r) ;;;
  match http r with
  | Resolved d => ret d
  | Rejected err => s <- get_state ;; throw (thrown_by (formatError s err))
  end.

Definition apiGet `{JsRuntime} {T} (http : Transport T) (endpoint : string)
    (params : option (list (string * value))) : M JsError T :=
  request http GET endpoint params None.

Definition apiDelete `{JsRuntime} {T} (http : Transport T) (endpoint : string)
    (params : option (list (string * value))) : M JsError T :=
  request http DELETE endpoint params None.

Definition apiPost `{JsRuntime} {T} (http : Transport T) (endpoint : string)
    (body : option value) : M JsError T :=
  request http POST endpoint None body.

(** ** [src/utils/spinner.ts] *)

Definition withSpinner {E A} (text : string) (fn : M E A) : M E A :=
  emit (SpinnerStart text) ;;;
  try_catch
    (result <- fn ;;
     emit SpinnerStop ;;;
     ret result)
    (fun err =>
       emit SpinnerFail ;;;
       throw err).

(** The chalk styles of the helpers below that the listing commands do
    not use: [chalk.white] and the badge backgrounds. *)
Inductive BadgeColor : Type :=
| badge_green | badge_red | badge_yellow | badge_blue | badge_gray.

Class ChalkPalette : Type := {
  chalk_white : string -> string;
  chalk_badge : BadgeColor -> string -> string
}.

(** ** [src/utils/output.ts] *)

Module out.

Definition success `{JsRuntime} {E} (msg : string) : M E unit :=
  emit (Stdout (chalk green "✓" ++ " " ++ msg)).

Definition error `{JsRuntime} {E} (msg : string) : M E unit :=
  emit (Stderr (chalk red "✗" ++ " " ++ msg)).

Definition info `{JsRuntime} {E} (msg : string) : M E unit :=
  emit (Stdout (chalk blue "ℹ" ++ " " ++ msg)).

Definition header `{JsRuntime} {E} (title : string) : M E unit :=
  emit (Stdout "") ;;;
  emit (Stdout (chalk bold_cyan title)) ;;;
  emit (Stdout (chalk dim (repeat_string "─" (js_length title)))).

(** A table cell, [string | number]; [table] prints [String(cell)]. *)
Inductive Cell : Type :=
| text (s : string)
| num (n : number).

Definition String_of_cell `{JsRuntime} (c : Cell) : string :=
  match c with
  | text s => s
  | num n => Number_toString n
  end.

(** [console.log(t.toString())] of the cli-table3 table with that head and
    those rows. *)
Definition table `{JsRuntime} {E} (headers : list string) (rows : list (list Cell)) : M E unit :=
  emit (TableOut (map (chalk cyan) headers) (map (map String_of_cell) rows)).

(** What [console.log(JSON.stringify(d, null, 2))] writes; [console.log]
    shows an [undefined] result by name. *)
Definition json_text `{JsRuntime} (d : value) : string :=
  match JSON_stringify d with
  | Some s => s
  | None => "undefined"
  end.

Definition json `{JsRuntime} {E} (d : value) : M E unit :=
  emit (Stdout (json_text d)).

Definition emptyState `{JsRuntime} {E} (msg : string) : M E unit :=
  emit (Stdout (chalk dim ("  (" ++ msg ++ ")"))).

Definition warn `{JsRuntime} {E} (msg : string) : M E unit :=
  emit (Stdout (chalk yellow "⚠" ++ " " ++ msg)).

(** [label(key, value)]; the value is a [string | number] here, as at every
    call site. *)
Definition label `{JsRuntime} `{ChalkPalette} {E} (key : string) (v : Cell) : M E unit :=
  emit (Stdout (chalk dim (key ++ ":") ++ " " ++ chalk_white (String_of_cell v))).

Definition divider `{JsRuntime} {E} : M E unit :=
  emit (Stdout (chalk dim (repeat_string "─" 50))).

Definition badge `{ChalkPalette} (s : string) (color : BadgeColor) : string :=
  chalk_badge color (" " ++ s ++ " ").

Definition statusBadge `{ChalkPalette} (active : bool) : string :=
  if active then badge "ACTIVE" badge_green else badge "INACTIVE" badge_gray.

Definition printServerUrl `{JsRuntime} {E} (url : string) : M E unit :=
  emit (Stdout (chalk dim ("Server: " ++ url))).

(** [count(n, singular, plural?)]: [n === 1] is a comparison of doubles. *)
Definition count_word (n : number) (singular : string) (plural : option string) : string :=
  if (n =? 1)%float then singular else or_else plural (singular ++ "s").

Definition count `{JsRuntime} (n : number) (singular : string) (plural : option string)
  : string :=
  chalk bold (Number_toString n) ++ " " ++ count_word n singular plural.

End out.

(** ** The data model: the TypeScript interfaces of the command files

    Each interface is a record; an optional property is an [option].
    [ToJSON] gives the runtime object behind a typed view, which is what
    [out.json] serializes. *)

Class ToJSON (T : Type) : Type := to_value : T -> value.

#[export] Instance string_ToJSON : ToJSON string := VString.
#[export] Instance number_ToJSON : ToJSON number := VNumber.
#[export] Instance bool_ToJSON : ToJSON bool := VBool.
#[export] Instance value_ToJSON : ToJSON value := fun v => v.
#[export] Instance list_ToJSON {T} `{ToJSON T} : ToJSON (list T) :=
  fun xs => VArray (map to_value xs).

(** A [Record<string, T>]: the own properties in enumeration order. *)
#[export] Instance record_ToJSON {T} `{ToJSON T} : ToJSON (list (string * T)) :=
  fun kvs => VObject (map (fun kv => (fst kv, to_value (snd kv))) (Object_entries kvs)).

(** A required and an optional property of an object literal. *)
Definition prop {T} `{ToJSON T} (key : string) (x : T) : list (string * value) :=
  [(key, to_value x)].

Definition prop_opt {T} `{ToJSON T} (key : string) (x : option T) : list (string * value) :=
  match x with
  | Some v => [(key, to_value v)]
  | None => []
  end.

Module Capability.
Record t : Type := { type : string }.
End Capability.

#[export] Instance Capability_ToJSON : ToJSON Capability.t :=
  fun c => VObject (prop "type" (Capability.type c)).

Module RateLimit.
Record t : Type := { maxCallsPerMinute : number; maxCallsPerHour : number }.
End RateLimit.

#[export] Instance RateLimit_ToJSON : ToJSON RateLimit.t :=
  fun r => VObject (prop "maxCallsPerMinute" (RateLimit.maxCallsPerMinute r)
                    ++ prop "maxCallsPerHour" (RateLimit.maxCallsPerHour r))%list.

Module Tool.
Record t : Type := {
  name : string;
  description : string;
  version : number;
  active : bool;
  category : option string;
  tags : option (list string);
  capabilities : option (list Capability.t);
  createdAt : string;
  updatedAt : string;
  code : option string;
  schema : option value;
  rateLimit : option RateLimit.t;
  dependencies : option (list string);
  author : option string
}.
End Tool.

#[export] Instance Tool_ToJSON : ToJSON Tool.t :=
  fun x => VObject (prop "name" (Tool.name x)
                    ++ prop "description" (Tool.description x)
                    ++ prop "version" (Tool.version x)
                    ++ prop "active" (Tool.active x)
                    ++ prop_opt "category" (Tool.category x)
                    ++ prop_opt "tags" (Tool.tags x)
                    ++ prop_opt "capabilities" (Tool.capabilities x)
                    ++ prop "createdAt" (Tool.createdAt x)
                    ++ prop "updatedAt" (Tool.updatedAt x)
                    ++ prop_opt "code" (Tool.code x)
                    ++ prop_opt "schema" (Tool.schema x)
                    ++ prop_opt "rateLimit" (Tool.rateLimit x)
                    ++ prop_opt "dependencies" (Tool.dependencies x)
                    ++ prop_opt "author" (Tool.author x))%list.

Module Stats.
Record t : Type := {
  totalCalls : number;
  successfulCalls : number;
  failedCalls : number;
  averageDurationMs : number;
  lastExecutedAt : option string
}.
End Stats.

#[export] Instance Stats_ToJSON : ToJSON Stats.t :=
  fun x => VObject (prop "totalCalls" (Stats.totalCalls x)
                    ++ prop "successfulCalls" (Stats.successfulCalls x)
                    ++ prop "failedCalls" (Stats.failedCalls x)
                    ++ prop "averageDurationMs" (Stats.averageDurationMs x)
                    ++ prop_opt "lastExecutedAt" (Stats.lastExecutedAt x))%list.

Module MarketplaceEntry.
Record t : Type := {
  id : string;
  name : string;
  description : string;
  author : string;
  version : string;
  category : string;
  tags : list string;
  exportedAt : string;
  owner_login : option string
}.
End MarketplaceEntry.

#[export] Instance MarketplaceEntry_ToJSON : ToJSON MarketplaceEntry.t :=
  fun x => VObject (prop "id" (MarketplaceEntry.id x)
                    ++ prop "name" (MarketplaceEntry.name x)
                    ++ prop "description" (MarketplaceEntry.description x)
                    ++ prop "author" (MarketplaceEntry.author x)
                    ++ prop "version" (MarketplaceEntry.version x)
                    ++ prop "category" (MarketplaceEntry.category x)
                    ++ prop "tags" (MarketplaceEntry.tags x)
                    ++ prop "exportedAt" (MarketplaceEntry.exportedAt x)
                    ++ prop_opt "owner_login" (MarketplaceEntry.owner_login x))%list.

Module InstallResult.
Record t : Type := { success : bool; message : string }.
End InstallResult.

Module AuditEntry.
Record t : Type := {
  timestamp : string;
  action : string;
  toolName : string;
  duration : option number;
  details : option (list (string * value))
}.
End AuditEntry.

#[export] Instance AuditEntry_ToJSON : ToJSON AuditEntry.t :=
  fun x => VObject (prop "timestamp" (AuditEntry.timestamp x)
                    ++ prop "action" (AuditEntry.action x)
                    ++ prop "toolName" (AuditEntry.toolName x)
                    ++ prop_opt "duration" (AuditEntry.duration x)
                    ++ prop_opt "details" (AuditEntry.details x))%list.

Module Permission.
Record t : Type := {
  toolName : string;
  toolVersion : number;
  approvedCapabilities : list Capability.t;
  approvedAt : string
}.
End Permission.

#[export] Instance Permission_ToJSON : ToJSON Permission.t :=
  fun x => VObject (prop "toolName" (Permission.toolName x)
                    ++ prop "toolVersion" (Permission.toolVersion x)
                    ++ prop "approvedCapabilities" (Permission.approvedCapabilities x)
                    ++ prop "approvedAt" (Permission.approvedAt x))%list.

Module Schedule.
Record t : Type := {
  id : string;
  toolName : string;
  cron : string;
  enabled : bool;
  lastRun : option string;
  nextRun : option string
}.
End Schedule.

#[export] Instance Schedule_ToJSON : ToJSON Schedule.t :=
  fun x => VObject (prop "id" (Schedule.id x)
                    ++ prop "toolName" (Schedule.toolName x)
                    ++ prop "cron" (Schedule.cron x)
                    ++ prop "enabled" (Schedule.enabled x)
                    ++ prop_opt "lastRun" (Schedule.lastRun x)
                    ++ prop_opt "nextRun" (Schedule.nextRun x))%list.

Module Webhook.
Record t : Type := {
  id : string;
  toolName : string;
  path : string;
  method : string;
  enabled : bool;
  secret : option string
}.
End Webhook.

#[export] Instance Webhook_ToJSON : ToJSON Webhook.t :=
  fun x => VObject (prop "id" (Webhook.id x)
                    ++ prop "toolName" (Webhook.toolName x)
                    ++ prop "path" (Webhook.path x)
                    ++ prop "method" (Webhook.method x)
                    ++ prop "enabled" (Webhook.enabled x)
                    ++ prop_opt "secret" (Webhook.secret x))%list.

Module Step.
Record t : Type := { tool : string }.
End Step.

#[export] Instance Step_ToJSON : ToJSON Step.t :=
  fun x => VObject (prop "tool" (Step.tool x)).

Module Pipeline.
Record t : Type := {
  name : string;
  description : string;
  steps : list Step.t
}.
End Pipeline.

#[export] Instance Pipeline_ToJSON : ToJSON Pipeline.t :=
  fun x => VObject (prop "name" (Pipeline.name x)
                    ++ prop "description" (Pipeline.description x)
                    ++ prop "steps" (Pipeline.steps x))%list.

(** An entry of the [secrets] response.  The declared type has [name],
    [createdAt] and [updatedAt]; object types are open, so the runtime
    object may carry further properties, kept in [others]. *)
Module Secret.
Record t : Type := {
  name : string;
  createdAt : string;
  updatedAt : string;
  others : list (string * value)
}.
End Secret.

#[export] Instance Secret_ToJSON : ToJSON Secret.t :=
  fun x => VObject (prop "name" (Secret.name x)
                    ++ prop "createdAt" (Secret.createdAt x)
                    ++ prop "updatedAt" (Secret.updatedAt x)
                    ++ Secret.others x)%list.

(** ** [src/commands/tools.ts] *)

(** The handler every action ends with:
    [catch (err) { out.error(err.message); process.exit(1); }]. *)
Definition report_and_exit `{JsRuntime} {A} (err : JsError) : M JsError A :=
  out.error (message err) ;;;
  process_exit 1.

(** The options object of [tools list]; a boolean flag is [true] or absent. *)
Module ListOpts.
Record t : Type := {
  active : bool;
  category : option string;
  tag : option string;
  json : bool
}.
End ListOpts.

(** [t.category === x] for a string [x]. *)
Definition category_is (c : option string) (x : string) : bool :=
  match c with
  | Some c' => String.eqb c' x
  | None => false
  end.

(** [t.tags?.includes(x)], as a condition. *)
Definition tags_include (tags : option (list string)) (x : string) : bool :=
  match tags with
  | Some l => existsb (String.eqb x) l
  | None => false
  end.

(** Lines 51-54 of [tools.ts]: the three client-side filters. *)
Definition filter_tools (opts : ListOpts.t) (data : list Tool.t) : list Tool.t :=
  let filtered := data in
  let filtered := if ListOpts.active opts
                  then filter (fun t => Tool.active t) filtered else filtered in
  let filtered := match ListOpts.category opts with
                  | Some c => if truthy_string c
                              then filter (fun t => category_is (Tool.category t) c) filtered
                              else filtered
                  | None => filtered
                  end in
  let filtered := match ListOpts.tag opts with
                  | Some g => if truthy_string g
                              then filter (fun t => tags_include (Tool.tags t) g) filtered
                              else filtered
                  | None => filtered
                  end in
  filtered.

(** [(tags || []).map(t => style(`#${t}`)).join(" ") || chalk.dim("none")]. *)
Definition tags_cell `{JsRuntime} (tags : list string) : string :=
  let joined := join " " (map (fun tag => chalk cyan ("#" ++ tag)) tags) in
  if truthy_string joined then joined else chalk dim "none".

Definition tool_row `{JsRuntime} (t : Tool.t) : list out.Cell :=
  [ out.text (chalk bold (Tool.name t));
    out.text (if Tool.active t then chalk green "active" else chalk dim "inactive");
    out.text ("v" ++ Number_toString (Tool.version t));
    out.text (or_else (Tool.category t) "other");
    out.text (tags_cell (match Tool.tags t with Some l => l | None => [] end)) ].

Definition tools_list `{JsRuntime} (http : Transport (list Tool.t)) (opts : ListOpts.t)
  : M JsError unit :=
  try_catch
    (data <- withSpinner "Fetching tools..." (apiGet http "tools" None) ;;
     let filtered := filter_tools opts data in
     if ListOpts.json opts then
       out.json (to_value filtered)
     else if Nat.eqb (List.length filtered) 0 then
       out.emptyState "no tools found"
     else
       out.header ("Tools (" ++ nat_to_string (List.length filtered) ++ ")") ;;;
       out.table ["Name"; "Status"; "Version"; "Category"; "Tags"]
                 (map tool_row filtered))
    report_and_exit.

(** The function-valued members of [Object.prototype]. *)
Definition Object_prototype_functions : list string :=
  [ "constructor"; "__defineGetter__"; "__defineSetter__"; "hasOwnProperty";
    "__lookupGetter__"; "__lookupSetter__"; "isPrototypeOf";
    "propertyIsEnumerable"; "toString"; "valueOf"; "toLocaleString" ].

(** [data[key]] on a parsed JSON object: an own property, else what
    [Object.prototype] answers (itself for [__proto__], whose enumerable own
    properties are none), else [undefined]. *)
Definition member {T} `{ToJSON T} (d : list (string * T)) (key : string) : value :=
  match lookup d key with
  | Some v => to_value v
  | None =>
      if String.eqb key "__proto__" then VObject []
      else if existsb (String.eqb key) Object_prototype_functions then VFunction key
      else VUndefined
  end.

(** Lines 167-169 of [tools.ts]: the [rate] of one entry. *)
Definition success_rate `{JsRuntime} (s : Stats.t) : string :=
  if (0 <? Stats.totalCalls s)%float
  then toFixed1 (Stats.successfulCalls s / Stats.totalCalls s * 100)%float ++ "%"
  else "0%".

Definition stats_row `{JsRuntime} (entry : string * Stats.t) : list out.Cell :=
  let toolName := fst entry in
  let s := snd entry in
  let rate := success_rate s in
  [ out.text (chalk bold toolName);
    out.num (Stats.totalCalls s);
    out.text (chalk green (Number_toString (Stats.successfulCalls s)));
    (if (0 <? Stats.failedCalls s)%float
     then out.text (chalk red (Number_toString (Stats.failedCalls s)))
     else out.text "0");
    out.text (Number_toString (Stats.averageDurationMs s) ++ "ms");
    out.text (match Stats.lastExecutedAt s with
              | Some d => if truthy_string d then Date_toLocaleString d else chalk dim "never"
              | None => chalk dim "never"
              end) ].

Definition tools_stats `{JsRuntime} (http : Transport (list (string * Stats.t)))
    (name : option string) (json : bool) : M JsError unit :=
  try_catch
    (data <- withSpinner "Fetching stats..." (apiGet http "stats" None) ;;
     if json then
       out.json (match name with
                 | Some n => if truthy_string n then VObject [(n, member data n)]
                             else to_value data
                 | None => to_value data
                 end)
     else
       let entries := match name with
                      | Some n => if truthy_string n
                                  then filter (fun kv => String.eqb (fst kv) n) (Object_entries data)
                                  else Object_entries data
                      | None => Object_entries data
                      end in
       if Nat.eqb (List.length entries) 0 then
         out.emptyState (match name with
                         | Some n => if truthy_string n then "no stats for '" ++ n ++ "'"
                                     else "no execution stats yet"
                         | None => "no execution stats yet"
                         end)
       else
         out.header "Execution Stats" ;;;
         out.table ["Tool"; "Total"; "Success"; "Failed"; "Avg Duration"; "Last Run"]
                   (map stats_row entries))
    report_and_exit.

(** ** [src/commands/marketplace.ts] *)

(** [xs.forEach(f)]. *)
Fixpoint for_each {E A} (f : A -> M E unit) (xs : list A) : M E unit :=
  match xs with
  | [] => ret tt
  | x :: rest => f x ;;; for_each f rest
  end.

Definition marketplace_row `{JsRuntime} (e : MarketplaceEntry.t) : list out.Cell :=
  [ out.text (chalk bold (MarketplaceEntry.name e));
    out.text ("v" ++ MarketplaceEntry.version e);
    out.text (MarketplaceEntry.author e);
    out.text (MarketplaceEntry.category e);
    out.text (tags_cell (MarketplaceEntry.tags e)) ].

Definition marketplace_list `{JsRuntime} (http : Transport (list MarketplaceEntry.t))
    (json : bool) : M JsError unit :=
  try_catch
    (data <- withSpinner "Fetching local marketplace..." (apiGet http "marketplace" None) ;;
     if json then
       out.json (to_value data)
     else if Nat.eqb (List.length data) 0 then
       out.emptyState "local marketplace is empty"
     else
       out.header ("Local Marketplace (" ++ nat_to_string (List.length data) ++ ")") ;;;
       out.table ["Name"; "Version"; "Author"; "Category"; "Tags"]
                 (map marketplace_row data))
    report_and_exit.

Module BrowseOpts.
Record t : Type := {
  query : option string;
  category : option string;
  json : bool
}.
End BrowseOpts.

(** [if (o) params.key = o]. *)
Definition param_if_truthy (key : string) (o : option string) : list (string * value) :=
  match o with
  | Some s => if truthy_string s then [(key, VString s)] else []
  | None => []
  end.

Definition remote_row `{JsRuntime} (e : MarketplaceEntry.t) : list out.Cell :=
  [ out.text (chalk bold (MarketplaceEntry.name e));
    out.text ("v" ++ MarketplaceEntry.version e);
    out.text (or_else (MarketplaceEntry.owner_login e) (MarketplaceEntry.author e));
    out.text (MarketplaceEntry.category e);
    out.text (tags_cell (MarketplaceEntry.tags e)) ].

Definition marketplace_browse `{JsRuntime} (http : Transport (list MarketplaceEntry.t))
    (opts : BrowseOpts.t) : M JsError unit :=
  try_catch
    (let params := (param_if_truthy "query" (BrowseOpts.query opts)
                    ++ param_if_truthy "category" (BrowseOpts.category opts))%list in
     data <- withSpinner "Browsing remote marketplace..."
               (apiGet http "marketplace/remote" (Some params)) ;;
     if BrowseOpts.json opts then
       out.json (to_value data)
     else if Nat.eqb (List.length data) 0 then
       out.emptyState (match BrowseOpts.query opts with
                       | Some q => if truthy_string q then "no tools matching '" ++ q ++ "'"
                                   else "remote marketplace is empty"
                       | None => "remote marketplace is empty"
                       end)
     else
       out.header ("Remote Marketplace (" ++ nat_to_string (List.length data) ++ ")") ;;;
       out.table ["Name"; "Version"; "Author"; "Category"; "Tags"]
                 (map remote_row data) ;;;
       emit (Stdout "") ;;;
       out.info "Install a tool with: architect marketplace install <name>")
    report_and_exit.

Definition marketplace_install `{JsRuntime} (http : Transport InstallResult.t)
    (name : string) (overwrite : bool) : M JsError unit :=
  try_catch
    (result <- withSpinner ("Installing " ++ name ++ "...")
                 (apiPost http "marketplace/install"
                    (Some (VObject [ ("id", VString name);
                                     ("overwrite", VBool (overwrite || false)) ]))) ;;
     if InstallResult.success result then
       out.success ("Tool '" ++ name ++ "' installed successfully") ;;;
       out.info "Run 'architect tools list' to see it"
     else
       out.error (if truthy_string (InstallResult.message result)
                  then InstallResult.message result
                  else "Failed to install '" ++ name ++ "'") ;;;
       process_exit 1)
    report_and_exit.

Definition search_block `{JsRuntime} {E} (e : MarketplaceEntry.t) : M E unit :=
  emit (Stdout "") ;;;
  emit (Stdout (chalk bold_white (MarketplaceEntry.name e)
                ++ chalk dim (" v" ++ MarketplaceEntry.version e)
                ++ " by "
                ++ chalk cyan (or_else (MarketplaceEntry.owner_login e)
                                       (MarketplaceEntry.author e)))) ;;;
  emit (Stdout ("  " ++ MarketplaceEntry.description e)) ;;;
  emit (Stdout ("  " ++ join " " (map (fun t => chalk dim ("#" ++ t))
                                      (MarketplaceEntry.tags e)))).

Definition marketplace_search `{JsRuntime} (http : Transport (list MarketplaceEntry.t))
    (query : string) (json : bool) : M JsError unit :=
  try_catch
    (data <- withSpinner ("Searching for '" ++ query ++ "'...")
               (apiGet http "marketplace/remote" (Some [("query", VString query)])) ;;
     if json then
       out.json (to_value data)
     else if Nat.eqb (List.length data) 0 then
       out.emptyState ("no tools found matching '" ++ query ++ "'")
     else
       out.header ("Search Results for '" ++ query ++ "' ("
                   ++ nat_to_string (List.length data) ++ ")") ;;;
       for_each search_block data ;;;
       emit (Stdout "") ;;;
       out.info "Install with: architect marketplace install <name>")
    report_and_exit.

(** ** [src/commands/server.ts] *)

Definition server_status `{JsRuntime} (http : Transport value) : M JsError unit :=
  url <- getServerUrl ;;
  try_catch
    (withSpinner "Checking server..." (apiGet http "overview" None) ;;;
     out.success ("Server is running at " ++ chalk cyan url))
    (fun err =>
       let msg := message err in
       (if includes "Cannot connect" msg then
          out.error ("Server is not running at " ++ chalk cyan url) ;;;
          emit (Stdout (chalk dim "  Set ARCHITECT_SERVER env variable to change the URL"))
        else
          out.error msg) ;;;
       process_exit 1).

Module LogsOpts.
Record t : Type := {
  limit : string;
  tool : option string;
  json : bool
}.
End LogsOpts.

Definition log_row `{JsRuntime} (log : AuditEntry.t) : list out.Cell :=
  [ out.text (chalk dim (Date_toLocaleString (AuditEntry.timestamp log)));
    out.text (chalk cyan (AuditEntry.action log));
    out.text (AuditEntry.toolName log);
    out.text (match AuditEntry.duration log with
              | Some d => if truthy_number d then Number_toString d ++ "ms" else chalk dim "—"
              | None => chalk dim "—"
              end) ].

Definition server_logs `{JsRuntime} (http : Transport (list AuditEntry.t))
    (opts : LogsOpts.t) : M JsError unit :=
  try_catch
    (let params := ([("limit", VNumber (parseInt (LogsOpts.limit opts)))]
                    ++ param_if_truthy "tool" (LogsOpts.tool opts))%list in
     data <- withSpinner "Fetching logs..." (apiGet http "audit" (Some params)) ;;
     if LogsOpts.json opts then
       out.json (to_value data)
     else if Nat.eqb (List.length data) 0 then
       out.emptyState "no audit logs yet"
     else
       out.header ("Audit Logs (" ++ nat_to_string (List.length data) ++ ")") ;;;
       out.table ["Time"; "Action"; "Tool"; "Duration"] (map log_row data))
    report_and_exit.

Definition permission_row `{JsRuntime} (p : Permission.t) : list out.Cell :=
  [ out.text (chalk bold (Permission.toolName p));
    out.text ("v" ++ Number_toString (Permission.toolVersion p));
    out.text (join ", " (map (fun c => chalk yellow (Capability.type c))
                             (Permission.approvedCapabilities p)));
    out.text (Date_toLocaleString (Permission.approvedAt p)) ].

Definition server_permissions `{JsRuntime} (http : Transport (list Permission.t))
    (json : bool) : M JsError unit :=
  try_catch
    (data <- withSpinner "Fetching permissions..." (apiGet http "permissions" None) ;;
     if json then
       out.json (to_value data)
     else if Nat.eqb (List.length data) 0 then
       out.emptyState "no permissions configured"
     else
       out.header ("Permissions (" ++ nat_to_string (List.length data) ++ ")") ;;;
       out.table ["Tool"; "Version"; "Capabilities"; "Approved At"]
                 (map permission_row data))
    report_and_exit.

(** [o ? new Date(o).toLocaleString() : fallback]. *)
Definition date_or `{JsRuntime} (o : option string) (fallback : string) : string :=
  match o with
  | Some d => if truthy_string d then Date_toLocaleString d else fallback
  | None => fallback
  end.

Definition schedule_row `{JsRuntime} (s : Schedule.t) : list out.Cell :=
  [ out.text (chalk dim (String.substring 0 16 (Schedule.id s) ++ "..."));
    out.text (chalk bold (Schedule.toolName s));
    out.text (chalk cyan (Schedule.cron s));
    out.text (if Schedule.enabled s then chalk green "enabled" else chalk dim "disabled");
    out.text (date_or (Schedule.lastRun s) (chalk dim "never"));
    out.text (date_or (Schedule.nextRun s) (chalk dim "n/a")) ].

Definition server_schedules `{JsRuntime} (http : Transport (list Schedule.t))
    (json : bool) : M JsError unit :=
  try_catch
    (data <- withSpinner "Fetching schedules..." (apiGet http "schedules" None) ;;
     if json then
       out.json (to_value data)
     else if Nat.eqb (List.length data) 0 then
       out.emptyState "no schedules configured"
     else
       out.header ("Schedules (" ++ nat_to_string (List.length data) ++ ")") ;;;
       out.table ["ID"; "Tool"; "Cron"; "Status"; "Last Run"; "Next Run"]
                 (map schedule_row data))
    report_and_exit.

Definition webhook_row `{JsRuntime} (w : Webhook.t) : list out.Cell :=
  [ out.text (chalk dim (String.substring 0 12 (Webhook.id w) ++ "..."));
    out.text (chalk bold (Webhook.toolName w));
    out.text (chalk cyan ("/webhook" ++ Webhook.path w));
    out.text (chalk blue (Webhook.method w));
    out.text (if Webhook.enabled w then chalk green "enabled" else chalk dim "disabled");
    out.text (if truthy (Webhook.secret w) then chalk green "✓" else chalk dim "—") ].

Definition server_webhooks `{JsRuntime} (http : Transport (list Webhook.t))
    (json : bool) : M JsError unit :=
  try_catch
    (data <- withSpinner "Fetching webhooks..." (apiGet http "webhooks" None) ;;
     if json then
       out.json (to_value data)
     else if Nat.eqb (List.length data) 0 then
       out.emptyState "no webhooks configured"
     else
       out.header ("Webhooks (" ++ nat_to_string (List.length data) ++ ")") ;;;
       out.table ["ID"; "Tool"; "Path"; "Method"; "Status"; "Secret"]
                 (map webhook_row data))
    report_and_exit.

Definition pipeline_row `{JsRuntime} (p : Pipeline.t) : list out.Cell :=
  [ out.text (chalk bold (Pipeline.name p));
    out.text (Pipeline.description p);
    out.text (chalk cyan (nat_to_string (List.length (Pipeline.steps p)))
              ++ " → " ++ join " → " (map Step.tool (Pipeline.steps p))) ].

Definition server_pipelines `{JsRuntime} (http : Transport (list Pipeline.t))
    (json : bool) : M JsError unit :=
  try_catch
    (data <- withSpinner "Fetching pipelines..." (apiGet http "pipelines" None) ;;
     if json then
       out.json (to_value data)
     else if Nat.eqb (List.length data) 0 then
       out.emptyState "no pipelines defined"
     else
       out.header ("Pipelines (" ++ nat_to_string (List.length data) ++ ")") ;;;
       out.table ["Name"; "Description"; "Steps"] (map pipeline_row data))
    report_and_exit.

Definition secret_row `{JsRuntime} (s : Secret.t) : list out.Cell :=
  [ out.text (chalk bold (Secret.name s));
    out.text (Date_toLocaleString (Secret.createdAt s));
    out.text (Date_toLocaleString (Secret.updatedAt s)) ].

Definition server_secrets `{JsRuntime} (http : Transport (list Secret.t))
    (json : bool) : M JsError unit :=
  try_catch
    (data <- withSpinner "Fetching secrets..." (apiGet http "secrets" None) ;;
     if json then
       out.json (to_value data)
     else if Nat.eqb (List.length data) 0 then
       out.emptyState "no secrets stored"
     else
       out.header ("Secrets (" ++ nat_to_string (List.length data) ++ ")") ;;;
       out.info "Secret values are never displayed" ;;;
       emit (Stdout "") ;;;
       out.table ["Name"; "Created"; "Updated"] (map secret_row data))
    report_and_exit.

(** ** [src/index.ts]: the top-level [status] command *)

Definition status `{JsRuntime} (http : Transport value) : M JsError unit :=
  try_catch
    (apiGet http "overview" None ;;;
     url <- getServerUrl ;;
     emit (Stdout (chalk green "✓" ++ " Server is running at " ++ chalk cyan url)))
    (fun _ : JsError =>
       url <- getServerUrl ;;
       emit (Stderr (chalk red "✗" ++ " Server is not running at " ++ chalk cyan url)) ;;;
       process_exit 1).

(** ** The listing commands, as one family

    The eleven actions that fetch a collection and render it, indexed by
    command, with the options object each one reads, the payload type its
    request is typed with, and the collection it goes on to render. *)

Inductive Listing : Type :=
| ToolsList | ToolsStats
| MarketplaceList | MarketplaceBrowse | MarketplaceSearch
| ServerLogs | ServerPermissions | ServerSchedules | ServerWebhooks
| ServerPipelines | ServerSecrets.

Definition payload (c : Listing) : Type :=
  match c with
  | ToolsList => list Tool.t
  | ToolsStats => list (string * Stats.t)
  | MarketplaceList | MarketplaceBrowse | MarketplaceSearch => list MarketplaceEntry.t
  | ServerLogs => list AuditEntry.t
  | ServerPermissions => list Permission.t
  | ServerSchedules => list Schedule.t
  | ServerWebhooks => list Webhook.t
  | ServerPipelines => list Pipeline.t
  | ServerSecrets => list Secret.t
  end.

(** Positional arguments and options other than [--json]. *)
Definition arguments (c : Listing) : Type :=
  match c with
  | ToolsList => (bool * option string * option string)%type
  | ToolsStats => option string
  | MarketplaceBrowse => (option string * option string)%type
  | MarketplaceSearch => string
  | ServerLogs => (string * option string)%type
  | _ => unit
  end.

Definition run_listing `{JsRuntime} (c : Listing)
  : arguments c -> bool -> Transport (payload c) -> M JsError unit :=
  match c with
  | ToolsList => fun a json http =>
      tools_list http {| ListOpts.active := fst (fst a);
                         ListOpts.category := snd (fst a);
                         ListOpts.tag := snd a;
                         ListOpts.json := json |}
  | ToolsStats => fun a json http => tools_stats http a json
  | MarketplaceList => fun _ json http => marketplace_list http json
  | MarketplaceBrowse => fun a json http =>
      marketplace_browse http {| BrowseOpts.query := fst a;
                                 BrowseOpts.category := snd a;
                                 BrowseOpts.json := json |}
  | MarketplaceSearch => fun a json http => marketplace_search http a json
  | ServerLogs => fun a json http =>
      server_logs http {| LogsOpts.limit := fst a;
                          LogsOpts.tool := snd a;
                          LogsOpts.json := json |}
  | ServerPermissions => fun _ json http => server_permissions http json
  | ServerSchedules => fun _ json http => server_schedules http json
  | ServerWebhooks => fun _ json http => server_webhooks http json
  | ServerPipelines => fun _ json http => server_pipelines http json
  | ServerSecrets => fun _ json http => server_secrets http json
  end.

(** The size of the collection a command is left with after its
    client-side filtering of the fetched payload. *)
Definition remaining (c : Listing) : arguments c -> payload c -> nat :=
  match c with
  | ToolsList => fun a d =>
      List.length (filter_tools {| ListOpts.active := fst (fst a);
                                   ListOpts.category := snd (fst a);
                                   ListOpts.tag := snd a;
                                   ListOpts.json := false |} d)
  | ToolsStats => fun a d =>
      match a with
      | Some n => if truthy_string n
                  then List.length (filter (fun kv => String.eqb (fst kv) n) d)
                  else List.length d
      | None => List.length d
      end
  | MarketplaceList => fun _ d => List.length d
  | MarketplaceBrowse => fun _ d => List.length d
  | MarketplaceSearch => fun _ d => List.length d
  | ServerLogs => fun _ d => List.length d
  | ServerPermissions => fun _ d => List.length d
  | ServerSchedules => fun _ d => List.length d
  | ServerWebhooks => fun _ d => List.length d
  | ServerPipelines => fun _ d => List.length d
  | ServerSecrets => fun _ d => List.length d
  end.

(** The message each command passes to [emptyState]. *)
Definition empty_message (c : Listing) : arguments c -> string :=
  match c with
  | ToolsList => fun _ => "no tools found"
  | ToolsStats => fun a =>
      match a with
      | Some n => if truthy_string n then "no stats for '" ++ n ++ "'"
                  else "no execution stats yet"
      | None => "no execution stats yet"
      end
  | MarketplaceList => fun _ => "local marketplace is empty"
  | MarketplaceBrowse => fun a =>
      match fst a with
      | Some q => if truthy_string q then "no tools matching '" ++ q ++ "'"
                  else "remote marketplace is empty"
      | None => "remote marketplace is empty"
      end
  | MarketplaceSearch => fun a => "no tools found matching '" ++ a ++ "'"
  | ServerLogs => fun _ => "no audit logs yet"
  | ServerPermissions => fun _ => "no permissions configured"
  | ServerSchedules => fun _ => "no schedules configured"
  | ServerWebhooks => fun _ => "no webhooks configured"
  | ServerPipelines => fun _ => "no pipelines defined"
  | ServerSecrets => fun _ => "no secrets stored"
  end.

(** A server that answers every request with the body [d]. *)
Definition answers {T} (d : T) : Transport T := fun _ => Resolved d.

(** A server that fails every request with [err]. *)
Definition fails {T} (err : Thrown) : Transport T := fun _ => Rejected err.

(** ** Runs of the client module

    The operations on the client singleton that a process can interleave,
    and the instances its [createClient] calls return, in order. *)

Inductive Action : Type :=
| SetServerEnv (url : string)
| CreateClient
| ResetClient.

Fixpoint run_actions (acts : list Action) (s : State) : list AxiosInstance * State :=
  match acts with
  | [] => ([], s)
  | SetServerEnv url :: rest =>
      run_actions rest (state_of (@set_server_env JsError url s))
  | CreateClient :: rest =>
      match @createClient JsError s with
      | (Return c, s1, _) =>
          let (cs, s2) := run_actions rest s1 in (c :: cs, s2)
      | (_, s1, _) => run_actions rest s1
      end
  | ResetClient :: rest =>
      run_actions rest (state_of (@resetClient JsError s))
  end.

Definition is_reset (a : Action) : bool :=
  match a with ResetClient => true | _ => false end.

(** The state a process starts in: the environment as given, no client. *)
Definition initial_state (env : option string) : State :=
  {| env_ARCHITECT_SERVER := env; client := None; created := 0 |}.

(** Every instance handed out so far was stamped below the counter. *)
Definition stamped (s : State) : Prop :=
  forall c, client s = Some c -> instance_id c < created s.

(** ** A concrete runtime for examples

    chalk with colours switched off (level 0: the text unchanged), dates
    shown as received, and numbers restricted to what the examples use:
    integer-valued doubles print as their decimal digits, [NaN] and the
    infinities by name, and [parseInt] reads a run of leading digits. *)

Definition plain_Number_toString (x : number) : string :=
  if is_nan x then "NaN"
  else if (x =? infinity)%float then "Infinity"
  else if (x =? neg_infinity)%float then "-Infinity"
  else match Prim2SF x with
       | S754_finite sign m e =>
           let digits :=
             if (0 <=? e)%Z then decimal_of_Z (Z.pos m * 2 ^ e)
             else if (Z.pos m mod 2 ^ (- e) =? 0)%Z then decimal_of_Z (Z.pos m / 2 ^ (- e))
             else "" in
           if sign then "-" ++ digits else digits
       | _ => "0"
       end.

Definition digit_value (c : ascii) : option Z :=
  let n := nat_of_ascii c in
  if Nat.leb 48 n && Nat.leb n 57 then Some (Z.of_nat (n - 48)) else None.

Fixpoint leading_digits (s : string) (acc : option Z) : option Z :=
  match s with
  | EmptyString => acc
  | String c rest =>
      match digit_value c with
      | Some d => leading_digits rest (Some (10 * match acc with Some a => a | None => 0 end + d)%Z)
      | None => acc
      end
  end.

Definition plain_parseInt (s : string) : number :=
  match leading_digits s None with
  | Some z => SF2Prim (binary_normalize prec emax z 0 false)
  | None => nan
  end.

Definition plain_runtime : JsRuntime :=
  {| chalk := fun _ s => s;
     Number_toString := plain_Number_toString;
     Date_toLocaleString := fun s => s;
     parseInt := plain_parseInt |}.

(** ** Reading a run

    The instance [createClient] answers with in a state, the state it
    leaves, and the request record an API call sends from there. *)

Definition client_of (s : State) : AxiosInstance :=
  match client s with
  | Some c => c
  | None => {| instance_id := created s;
               baseURL := server_url s ++ "/api";
               timeout := 15000;
               headers := [("Content-Type", "application/json")] |}
  end.

Definition after_create (s : State) : State :=
  match client s with
  | Some _ => s
  | None => {| env_ARCHITECT_SERVER := env_ARCHITECT_SERVER s;
               client := Some (client_of s);
               created := S (created s) |}
  end.

Definition request_from (s : State) (method : Method) (endpoint : string)
    (params : option (list (string * value))) (body : option value) : Request :=
  {| req_method := method; req_client := client_of s; req_url := endpoint;
     req_params := params; req_body := body |}.

(** The three properties the declared type of a secret names. *)
Definition declared (x : Secret.t) : string * string * string :=
  (Secret.name x, Secret.createdAt x, Secret.updatedAt x).

(** ** The filter of [tools list], as the specification words it

    The conjunction of the predicates whose flag was supplied: the active
    flag true, the category equal to X, the tags containing Y. *)
Definition supplied_predicates (opts : ListOpts.t) (t : Tool.t) : bool :=
  (if ListOpts.active opts then Tool.active t else true)
  && match ListOpts.category opts with
     | Some x => category_is (Tool.category t) x
     | None => true
     end
  && match ListOpts.tag opts with
     | Some y => tags_include (Tool.tags t) y
     | None => true
     end.

(** A flag given an empty value is read as not supplied. *)
Definition nonempty (o : option string) : option string :=
  match o with
  | Some s => if truthy_string s then Some s else None
  | None => None
  end.

Definition effective (opts : ListOpts.t) : ListOpts.t :=
  {| ListOpts.active := ListOpts.active opts;
     ListOpts.category := nonempty (ListOpts.category opts);
     ListOpts.tag := nonempty (ListOpts.tag opts);
     ListOpts.json := ListOpts.json opts |}.

(** ** Example data *)

Definition example_tool (name : string) (active : bool) (category : option string)
    (tags : option (list string)) : Tool.t :=
  {| Tool.name := name;
     Tool.description := "an example tool";
     Tool.version := 1%float;
     Tool.active := active;
     Tool.category := category;
     Tool.tags := tags;
     Tool.capabilities := None;
     Tool.createdAt := "2024-01-01T00:00:00.000Z";
     Tool.updatedAt := "2024-01-02T00:00:00.000Z";
     Tool.code := None;
     Tool.schema := None;
     Tool.rateLimit := None;
     Tool.dependencies := None;
     Tool.author := None |}.

Definition example_stats (total ok failed : number) : Stats.t :=
  {| Stats.totalCalls := total;
     Stats.successfulCalls := ok;
     Stats.failedCalls := failed;
     Stats.averageDurationMs := 10%float;
     Stats.lastExecutedAt := None |}.

(** A secret entry as the type declares it, and one from a server that
    also sends the plaintext. *)
Definition plain_secret : Secret.t :=
  {| Secret.name := "API_KEY";
     Secret.createdAt := "2024-01-01T00:00:00.000Z";
     Secret.updatedAt := "2024-01-02T00:00:00.000Z";
     Secret.others := [] |}.

Definition leaky_secret : Secret.t :=
  {| Secret.name := "API_KEY";
     Secret.createdAt := "2024-01-01T00:00:00.000Z";
     Secret.updatedAt := "2024-01-02T00:00:00.000Z";
     Secret.others := [("value", VString "hunter2")] |}.

Definition example_entry : MarketplaceEntry.t :=
  {| MarketplaceEntry.id := "git-status";
     MarketplaceEntry.name := "git-status";
     MarketplaceEntry.description := "shows the state of a repository";
     MarketplaceEntry.author := "ada";
     MarketplaceEntry.version := "1.0.0";
     MarketplaceEntry.category := "vcs";
     MarketplaceEntry.tags := ["git"];
     MarketplaceEntry.exportedAt := "2024-01-01T00:00:00.000Z";
     MarketplaceEntry.owner_login := None |}.

(** An HTTP 500 answer, and a refused connection. *)
Definition http_500 : Thrown :=
  AxiosError (Some "ERR_BAD_RESPONSE")
    (Some {| AxiosResponse.status := 500%float;
             AxiosResponse.data := VObject [("error", VString "boom")] |})
    "Request failed with status code 500".

Definition connection_refused : Thrown :=
  AxiosError (Some "ECONNREFUSED") None "connect ECONNREFUSED 127.0.0.1:3001".

(** The [TypeError] that [new URL] raises on a base URL that is no URL; it
    is no [AxiosError] and owns a [code] and the rejected [input]. *)
Definition invalid_url : JsError :=
  {| message := "Invalid URL";
     own := [("code", VString "ERR_INVALID_URL"); ("input", VString "nowhere/api/overview")] |}.

(** An HTTP 500 answer whose [error] member is an object that owns a
    [toString] property. *)
Definition http_500_object : Thrown :=
  AxiosError (Some "ERR_BAD_RESPONSE")
    (Some {| AxiosResponse.status := 500%float;
             AxiosResponse.data :=
               VObject [("error", VObject [("toString", VString "x")])] |})
    "Request failed with status code 500".

(** ** The remaining actions of [src/commands/tools.ts] *)

(** [(xs || []).join(", ") || "none"]. *)
Definition joined_or_none (xs : option (list string)) : string :=
  let joined := join ", " (match xs with Some l => l | None => [] end) in
  if truthy_string joined then joined else "none".

(** The labelled block of [tools source], lines 104-132. *)
Definition show_tool `{JsRuntime} `{ChalkPalette} {E} (tool : Tool.t) : M E unit :=
  out.header ("Tool: " ++ Tool.name tool) ;;;
  out.label "Status" (out.text (if Tool.active tool then "active" else "inactive")) ;;;
  out.label "Version" (out.text ("v" ++ Number_toString (Tool.version tool))) ;;;
  out.label "Category" (out.text (or_else (Tool.category tool) "other")) ;;;
  out.label "Tags" (out.text (joined_or_none (Tool.tags tool))) ;;;
  out.label "Author" (out.text (or_else (Tool.author tool) "unknown")) ;;;
  out.label "Dependencies" (out.text (joined_or_none (Tool.dependencies tool))) ;;;
  out.label "Created" (out.text (Date_toLocaleString (Tool.createdAt tool))) ;;;
  out.label "Updated" (out.text (Date_toLocaleString (Tool.updatedAt tool))) ;;;
  (match Tool.capabilities tool with
   | Some (c :: cs) =>
       emit (Stdout "") ;;;
       out.label "Capabilities" (out.text (join ", " (map Capability.type (c :: cs))))
   | _ => ret tt
   end) ;;;
  (match Tool.rateLimit tool with
   | Some r =>
       emit (Stdout "") ;;;
       out.label "Rate Limit"
         (out.text (Number_toString (RateLimit.maxCallsPerMinute r) ++ "/min, "
                    ++ Number_toString (RateLimit.maxCallsPerHour r) ++ "/hr"))
   | None => ret tt
   end) ;;;
  emit (Stdout "") ;;;
  emit (Stdout (chalk dim "Description:")) ;;;
  emit (Stdout ("  " ++ Tool.description tool)) ;;;
  (if truthy (Tool.code tool) then
     emit (Stdout "") ;;;
     emit (Stdout (chalk dim "Code:")) ;;;
     emit (Stdout (chalk yellow (or_else (Tool.code tool) "")))
   else ret tt).


Module ReloadResult.
Record t : Type := { loaded : number; skipped : number; failed : number }.
End ReloadResult.

Definition tools_reload `{JsRuntime} `{ChalkPalette} (http : Transport ReloadResult.t)
  : M JsError unit :=
  try_catch
    (result <- withSpinner "Reloading tools..." (apiPost http "tools/reload" None) ;;
     out.success "Tools reloaded" ;;;
     out.label "Loaded" (out.num (ReloadResult.loaded result)) ;;;
     out.label "Skipped" (out.num (ReloadResult.skipped result)) ;;;
     out.label "Failed" (out.num (ReloadResult.failed result)))
    report_and_exit.

(** ** The remaining actions of [src/commands/server.ts] *)

Module Overview.
Record t : Type := {
  totalTools : number;
  activeTools : number;
  totalCalls : number;
  totalSuccess : number;
  totalFailed : number;
  cacheHitRate : number;
  schedulesCount : number;
  webhooksCount : number;
  pipelinesCount : number;
  aliasesCount : number
}.
End Overview.

#[export] Instance Overview_ToJSON : ToJSON Overview.t :=
  fun x => VObject (prop "totalTools" (Overview.totalTools x)
                    ++ prop "activeTools" (Overview.activeTools x)
                    ++ prop "totalCalls" (Overview.totalCalls x)
                    ++ prop "totalSuccess" (Overview.totalSuccess x)
                    ++ prop "totalFailed" (Overview.totalFailed x)
                    ++ prop "cacheHitRate" (Overview.cacheHitRate x)
                    ++ prop "schedulesCount" (Overview.schedulesCount x)
                    ++ prop "webhooksCount" (Overview.webhooksCount x)
                    ++ prop "pipelinesCount" (Overview.pipelinesCount x)
                    ++ prop "aliasesCount" (Overview.aliasesCount x))%list.

(** Lines 83-85 of [server.ts]: the [successRate] of the overview. *)
Definition overview_rate `{JsRuntime} (x : Overview.t) : string :=
  if (0 <? Overview.totalCalls x)%float
  then toFixed1 (Overview.totalSuccess x / Overview.totalCalls x * 100)%float
  else "0.0".

Definition overview_rows `{JsRuntime} (x : Overview.t) : list (list out.Cell) :=
  let successRate := overview_rate x in
  [ [out.text "Total Tools"; out.num (Overview.totalTools x)];
    [out.text "Active Tools";
     out.text (chalk green (Number_toString (Overview.activeTools x)))];
    [out.text "Total Executions"; out.num (Overview.totalCalls x)];
    [out.text "Success Rate"; out.text (chalk green (successRate ++ "%"))];
    [out.text "Failed";
     (if (0 <? Overview.totalFailed x)%float
      then out.text (chalk red (Number_toString (Overview.totalFailed x)))
      else out.text "0")];
    [out.text "Cache Hit Rate";
     out.text (chalk cyan (Number_toString (Overview.cacheHitRate x) ++ "%"))];
    [out.text "Schedules"; out.num (Overview.schedulesCount x)];
    [out.text "Webhooks"; out.num (Overview.webhooksCount x)];
    [out.text "Pipelines"; out.num (Overview.pipelinesCount x)];
    [out.text "Aliases"; out.num (Overview.aliasesCount x)] ].

Definition server_overview `{JsRuntime} (http : Transport Overview.t) (json : bool)
  : M JsError unit :=
  try_catch
    (data <- withSpinner "Fetching overview..." (apiGet http "overview" None) ;;
     if json then
       out.json (to_value data)
     else
       out.header "Architect Server Overview" ;;;
       url <- getServerUrl ;;
       out.printServerUrl url ;;;
       emit (Stdout "") ;;;
       out.table ["Metric"; "Value"] (overview_rows data))
    report_and_exit.

Module CacheStats.
Record t : Type := {
  totalEntries : number;
  hits : number;
  misses : number;
  hitRate : number;
  entriesByTool : list (string * number)
}.
End CacheStats.

#[export] Instance CacheStats_ToJSON : ToJSON CacheStats.t :=
  fun x => VObject (prop "totalEntries" (CacheStats.totalEntries x)
                    ++ prop "hits" (CacheStats.hits x)
                    ++ prop "misses" (CacheStats.misses x)
                    ++ prop "hitRate" (CacheStats.hitRate x)
                    ++ prop "entriesByTool" (CacheStats.entriesByTool x))%list.

Definition cache_rows `{JsRuntime} (x : CacheStats.t) : list (list out.Cell) :=
  [ [out.text "Total Entries"; out.num (CacheStats.totalEntries x)];
    [out.text "Hits"; out.text (chalk green (Number_toString (CacheStats.hits x)))];
    [out.text "Misses"; out.text (chalk yellow (Number_toString (CacheStats.misses x)))];
    [out.text "Hit Rate";
     out.text (chalk cyan (Number_toString (CacheStats.hitRate x) ++ "%"))] ].

Definition cache_stats `{JsRuntime} (http : Transport CacheStats.t) (json : bool)
  : M JsError unit :=
  try_catch
    (data <- withSpinner "Fetching cache stats..." (apiGet http "cache" None) ;;
     if json then
       out.json (to_value data)
     else
       out.header "Cache Stats" ;;;
       out.table ["Metric"; "Value"] (cache_rows data) ;;;
       (if Nat.ltb 0 (List.length (CacheStats.entriesByTool data)) then
          emit (Stdout "") ;;;
          out.header "Entries by Tool" ;;;
          out.table ["Tool"; "Entries"]
            (map (fun kv => [out.text (chalk bold (fst kv)); out.num (snd kv)])
                 (Object_entries (CacheStats.entriesByTool data)))
        else ret tt))
    report_and_exit.

(** The noun [cache clear] picks for the number of entries cleared. *)
Definition cleared_noun (cleared : number) : string :=
  if (cleared =? 1)%float then "entry" else "entries".

Module ClearResult.
Record t : Type := { cleared : number }.
End ClearResult.

Definition cache_clear `{JsRuntime} (http : Transport ClearResult.t) (tool : option string)
  : M JsError unit :=
  try_catch
    (let params := match tool with
                   | Some t => if truthy_string t then Some [("tool", VString t)] else None
                   | None => None
                   end in
     result <- withSpinner (match tool with
                            | Some t => if truthy_string t
                                        then "Clearing cache for '" ++ t ++ "'..."
                                        else "Clearing all cache..."
                            | None => "Clearing all cache..."
                            end)
                 (apiDelete http "cache" params) ;;
     out.success ("Cleared " ++ Number_toString (ClearResult.cleared result) ++ " cache "
                  ++ cleared_noun (ClearResult.cleared result)))
    report_and_exit.

(** ** The remaining parts of [src/index.ts] *)

(** The [--server <url>] option, processed before the action runs. *)
Definition with_server_option {A} (server : option string) (action : M JsError A)
  : M JsError A :=
  match server with
  | Some url => set_server_env url ;;; action
  | None => action
  end.

(** The [command:*] handler. *)
Definition unknown_command `{JsRuntime} (operand : string) : M JsError unit :=
  emit (Stderr (chalk red ("Unknown command: " ++ operand))) ;;;
  emit (Stdout ("Run " ++ chalk cyan "architect --help" ++ " for available commands")) ;;;
  process_exit 1.

(** ** The listing family, request by request *)

Definition listing_endpoint (c : Listing) : string :=
  match c with
  | ToolsList => "tools"
  | ToolsStats => "stats"
  | MarketplaceList => "marketplace"
  | MarketplaceBrowse | MarketplaceSearch => "marketplace/remote"
  | ServerLogs => "audit"
  | ServerPermissions => "permissions"
  | ServerSchedules => "schedules"
  | ServerWebhooks => "webhooks"
  | ServerPipelines => "pipelines"
  | ServerSecrets => "secrets"
  end.

Definition listing_params `{JsRuntime} (c : Listing)
  : arguments c -> option (list (string * value)) :=
  match c with
  | MarketplaceBrowse => fun a =>
      Some (param_if_truthy "query" (fst a) ++ param_if_truthy "category" (snd a))%list
  | MarketplaceSearch => fun a => Some [("query", VString a)]
  | ServerLogs => fun a =>
      Some ([("limit", VNumber (parseInt (fst a)))] ++ param_if_truthy "tool" (snd a))%list
  | _ => fun _ => None
  end.

Definition listing_spinner (c : Listing) : arguments c -> string :=
  match c with
  | ToolsList => fun _ => "Fetching tools..."
  | ToolsStats => fun _ => "Fetching stats..."
  | MarketplaceList => fun _ => "Fetching local marketplace..."
  | MarketplaceBrowse => fun _ => "Browsing remote marketplace..."
  | MarketplaceSearch => fun a => "Searching for '" ++ a ++ "'..."
  | ServerLogs => fun _ => "Fetching logs..."
  | ServerPermissions => fun _ => "Fetching permissions..."
  | ServerSchedules => fun _ => "Fetching schedules..."
  | ServerWebhooks => fun _ => "Fetching webhooks..."
  | ServerPipelines => fun _ => "Fetching pipelines..."
  | ServerSecrets => fun _ => "Fetching secrets..."
  end.

(** What a listing command hands to [out.json]. *)
Definition json_payload (c : Listing) : arguments c -> payload c -> value :=
  match c with
  | ToolsList => fun a d =>
      to_value (filter_tools {| ListOpts.active := fst (fst a);
                                ListOpts.category := snd (fst a);
                                ListOpts.tag := snd a;
                                ListOpts.json := true |} d)
  | ToolsStats => fun a d =>
      match a with
      | Some n => if truthy_string n then VObject [(n, member d n)] else to_value d
      | None => to_value d
      end
  | MarketplaceList => fun _ d => to_value d
  | MarketplaceBrowse => fun _ d => to_value d
  | MarketplaceSearch => fun _ d => to_value d
  | ServerLogs => fun _ d => to_value d
  | ServerPermissions => fun _ d => to_value d
  | ServerSchedules => fun _ d => to_value d
  | ServerWebhooks => fun _ d => to_value d
  | ServerPipelines => fun _ d => to_value d
  | ServerSecrets => fun _ d => to_value d
  end.

Definition is_stdout (ev : Event) : bool :=
  match ev with
  | Stdout _ | TableOut _ _ => true
  | _ => false
  end.

(** A step that only writes to standard output: it returns normally,
    leaves the state alone and emits console lines and tables only. *)
Definition quiet {E} (m : M E unit) : Prop :=
  forall s, exists evs, m s = (Return tt, s, evs) /\ forallb is_stdout evs = true.

(** The number of [ResetClient] steps in a run. *)
Definition resets (acts : list Action) : nat :=
  List.length (filter is_reset acts).

(** A palette for examples: no styling. *)
Definition plain_palette : ChalkPalette :=
  {| chalk_white := fun s => s; chalk_badge := fun _ s => s |}.

(** The tables printed, in order. *)
Definition tables (t : list Event) : list (list string * list (list string)) :=
  flat_map (fun ev => match ev with TableOut h rows => [(h, rows)] | _ => [] end) t.


Definition example_overview (calls ok : number) : Overview.t :=
  {| Overview.totalTools := 3%float;
     Overview.activeTools := 2%float;
     Overview.totalCalls := calls;
     Overview.totalSuccess := ok;
     Overview.totalFailed := 0%float;
     Overview.cacheHitRate := 50%float;
     Overview.schedulesCount := 0%float;
     Overview.webhooksCount := 0%float;
     Overview.pipelinesCount := 0%float;
     Overview.aliasesCount := 0%float |}.

(** ** Basic facts about runs *)

Lemma createClient_run {E} (s : State) :
  @createClient E s = (Return (client_of s), after_create s, []).
Proof.
  unfold createClient, after_create, client_of.
  destruct (client s); reflexivity.
Qed.

Lemma server_url_after_create (s : State) :
  server_url (after_create s) = server_url s.
Proof.
  unfold after_create. destruct (client s); reflexivity.
Qed.

Lemma client_after_create (s : State) :
  client (after_create s) = Some (client_of s).
Proof.
  unfold after_create, client_of.
  destruct (client s) eqn:Hc; simpl; auto.
Qed.

Lemma request_run `{JsRuntime} {T} (http : Transport T) method endpoint params body s :
  request http method endpoint params body s =
  match http (request_from s method endpoint params body) with
  | Resolved d =>
      (Return d, after_create s, [Sent (request_from s method endpoint params body)])
  | Rejected err =>
      (Throw (thrown_by (formatError (after_create s) err)), after_create s,
       [Sent (request_from s method endpoint params body)])
  end.
Proof.
  unfold request, bind. rewrite createClient_run.
  unfold request_from, emit.
  destruct (http _); reflexivity.
Qed.

Lemma withSpinner_run {E A} (text : string) (fn : M E A) (s : State) :
  withSpinner text fn s =
  match fn s with
  | (Return a, s1, t) => (Return a, s1, SpinnerStart text :: t ++ [SpinnerStop])
  | (Throw e, s1, t) => (Throw e, s1, SpinnerStart text :: t ++ [SpinnerFail])
  | (Exit c, s1, t) => (Exit c, s1, SpinnerStart text :: t)
  end%list.
Proof.
  unfold withSpinner, bind, try_catch, emit, ret, throw. simpl.
  destruct (fn s) as [[[a | e | c] s1] t]; reflexivity.
Qed.

Lemma fetch_answers `{JsRuntime} {T} (d : T) text endpoint params s :
  withSpinner text (apiGet (answers d) endpoint params) s =
  (Return d, after_create s,
   [SpinnerStart text; Sent (request_from s GET endpoint params None); SpinnerStop]).
Proof.
  rewrite withSpinner_run. unfold apiGet. rewrite request_run. reflexivity.
Qed.

Lemma fetch_fails `{JsRuntime} {T} (err : Thrown) text endpoint params s :
  withSpinner text (apiGet (@fails T err) endpoint params) s =
  (Throw (thrown_by (formatError (after_create s) err)), after_create s,
   [SpinnerStart text; Sent (request_from s GET endpoint params None); SpinnerFail]).
Proof.
  rewrite withSpinner_run. unfold apiGet. rewrite request_run. reflexivity.
Qed.

(** ** The order of [Object.entries]

    The entries are those of the record, rearranged: nothing is lost or
    added, so counts and emptiness are those of the record itself. *)

Lemma insert_indexed_perm {T} i (kv : string * T) l :
  Permutation (insert_indexed i kv l) (kv :: l).
Proof.
  induction l as [| kv' rest IH]; simpl; [reflexivity |].
  destruct (array_index (fst kv')) as [j |]; [| reflexivity].
  destruct (i <=? j)%N; [reflexivity |].
  rewrite IH. apply perm_swap.
Qed.

Lemma indexed_ascending_perm {T} (d : list (string * T)) :
  Permutation (indexed_ascending d) (filter is_index_key d).
Proof.
  induction d as [| kv rest IH]; simpl; [reflexivity |].
  unfold is_index_key at 1.
  destruct (array_index (fst kv)) as [i |]; [| exact IH].
  rewrite insert_indexed_perm. now constructor.
Qed.

Lemma insert_indexed_head {T} (i : N) (kv a : string * T) (l : list (string * T)) :
  array_index (fst kv) = Some i ->
  index_le a kv -> HdRel index_le a l -> HdRel index_le a (insert_indexed i kv l).
Proof.
  intros Hi Ha Hl. destruct l as [| kv' rest]; cbn [insert_indexed].
  - now constructor.
  - destruct (array_index (fst kv')) as [j |]; [| now constructor].
    destruct (i <=? j)%N; [now constructor |].
    constructor. now inversion Hl.
Qed.

Lemma insert_indexed_sorted {T} (i : N) (kv : string * T) (l : list (string * T)) :
  array_index (fst kv) = Some i ->
  Forall (fun x => is_index_key x = true) l ->
  Sorted index_le l -> Sorted index_le (insert_indexed i kv l).
Proof.
  intros Hi Hall Hl. induction Hl as [| kv' rest Hrest IH Hhd]; cbn [insert_indexed].
  - repeat constructor.
  - inversion Hall as [| ? ? Hkv' Hall']; subst.
    unfold is_index_key in Hkv'.
    destruct (array_index (fst kv')) as [j |] eqn:Hj; [| discriminate Hkv'].
    destruct (N.leb_spec i j) as [Hle | Hgt].
    + constructor; [now constructor |]. constructor.
      unfold index_le. now rewrite Hi, Hj.
    + constructor; [exact (IH Hall') |].
      apply insert_indexed_head; [exact Hi | | exact Hhd].
      unfold index_le. rewrite Hi, Hj. lia.
Qed.

Lemma insert_indexed_keys {T} (i : N) (kv : string * T) (l : list (string * T)) :
  array_index (fst kv) = Some i ->
  Forall (fun x => is_index_key x = true) l ->
  Forall (fun x => is_index_key x = true) (insert_indexed i kv l).
Proof.
  intros Hi Hall.
  assert (Hkv : is_index_key kv = true) by (unfold is_index_key; now rewrite Hi).
  induction Hall as [| kv' rest Hkv' Hall IH]; cbn [insert_indexed].
  - now constructor.
  - destruct (array_index (fst kv')) as [j |]; [| now repeat constructor].
    destruct (i <=? j)%N; now repeat constructor.
Qed.

Lemma indexed_ascending_sorted {T} (d : list (string * T)) :
  Sorted index_le (indexed_ascending d)
  /\ Forall (fun x => is_index_key x = true) (indexed_ascending d).
Proof.
  induction d as [| kv rest [IHs IHk]]; cbn [indexed_ascending].
  - split; constructor.
  - destruct (array_index (fst kv)) as [i |] eqn:Hi; [| now split].
    split.
    + now apply insert_indexed_sorted.
    + now apply insert_indexed_keys.
Qed.
Lemma filter_split_perm {A} (f : A -> bool) (l : list A) :
  Permutation (filter f l ++ filter (fun x => negb (f x)) l) l.
Proof.
  induction l as [| x l IH]; simpl; [reflexivity |].
  destruct (f x); simpl.
  - now constructor.
  - rewrite <- Permutation_middle. now constructor.
Qed.

Lemma Object_entries_perm {T} (d : list (string * T)) :
  Permutation (Object_entries d) d.
Proof.
  unfold Object_entries. rewrite indexed_ascending_perm. apply filter_split_perm.
Qed.

Lemma filter_perm {A} (f : A -> bool) (l l' : list A) :
  Permutation l l' -> Permutation (filter f l) (filter f l').
Proof.
  induction 1; simpl.
  - reflexivity.
  - destruct (f x); [now constructor | assumption].
  - destruct (f x), (f y); try reflexivity. apply perm_swap.
  - etransitivity; eassumption.
Qed.

Lemma Object_entries_length {T} (d : list (string * T)) :
  List.length (Object_entries d) = List.length d.
Proof.
  apply Permutation_length, Object_entries_perm.
Qed.

Lemma Object_entries_filter_length {T} (f : string * T -> bool) (d : list (string * T)) :
  List.length (filter f (Object_entries d)) = List.length (filter f d).
Proof.
  apply Permutation_length, filter_perm, Object_entries_perm.
Qed.

Lemma Object_entries_filter_nil {T} (f : string * T -> bool) (d : list (string * T)) :
  filter f d = [] -> filter f (Object_entries d) = [].
Proof.
  intros Hnil. apply Permutation_nil. rewrite <- Hnil.
  apply filter_perm. symmetry. apply Object_entries_perm.
Qed.

Lemma Object_entries_filter_one {T} (f : string * T -> bool) (d : list (string * T))
    (a : string * T) :
  filter f d = [a] -> filter f (Object_entries d) = [a].
Proof.
  intros Hone. apply Permutation_length_1_inv. rewrite <- Hone.
  apply filter_perm. symmetry. apply Object_entries_perm.
Qed.

Lemma Object_entries_nil {T} (d : list (string * T)) :
  Object_entries d = [] <-> d = [].
Proof.
  split.
  - intros Hnil. apply Permutation_nil. rewrite <- Hnil.
    apply Object_entries_perm.
  - intros ->. reflexivity.
Qed.

(** ** Title lengths

    The titles the commands print are ASCII text around a count, so the
    underline has one character per byte of the title. *)

Lemma js_length_ascii (s : string) :
  ascii_only s = true -> js_length s = String.length s.
Proof.
  induction s as [| c rest IH]; [reflexivity |].
  cbn [ascii_only js_length String.length].
  intros [Hc Hrest]%andb_prop. apply Nat.ltb_lt in Hc.
  rewrite (IH Hrest).
  replace (Nat.leb 128 (nat_of_ascii c)) with false
    by (symmetry; apply Nat.leb_gt; lia).
  replace (Nat.leb 240 (nat_of_ascii c)) with false
    by (symmetry; apply Nat.leb_gt; lia).
  reflexivity.
Qed.

Lemma ascii_only_app (a b : string) :
  ascii_only (a ++ b) = ascii_only a && ascii_only b.
Proof.
  induction a as [| c a IH]; [reflexivity |].
  cbn [append ascii_only]. now rewrite IH, andb_assoc.
Qed.

Lemma digits_ascii_only (u : Decimal.uint) :
  ascii_only (NilEmpty.string_of_uint u) = true.
Proof.
  induction u; cbn [NilEmpty.string_of_uint ascii_only]; try reflexivity; exact IHu.
Qed.

Lemma nat_to_string_ascii (n : nat) : ascii_only (nat_to_string n) = true.
Proof.
  apply digits_ascii_only.
Qed.

Lemma count_title_length (noun : string) (n : nat) :
  ascii_only noun = true ->
  js_length (noun ++ nat_to_string n ++ ")") = String.length (noun ++ nat_to_string n ++ ")").
Proof.
  intros Hn. apply js_length_ascii.
  now rewrite !ascii_only_app, Hn, nat_to_string_ascii.
Qed.

Lemma length_zero_eqb {A} (l : list A) :
  List.length l = 0 -> Nat.eqb (List.length l) 0 = true.
Proof.
  intros ->. reflexivity.
Qed.

(** ** The spinner wrapper *)

(** C9. [withSpinner(text, f)] ends exactly as [f] does: it returns the
    value [f] resolves with, re-raises the very error [f] rejects with,
    leaves the state [f] leaves, and adds nothing to the trace but spinner
    frames. *)
Theorem withSpinner_transparent {E A} (text : string) (f : M E A) (s : State) :
  outcome_of (withSpinner text f s) = outcome_of (f s)
  /\ state_of (withSpinner text f s) = state_of (f s)
  /\ without_spinner (trace_of (withSpinner text f s)) = without_spinner (trace_of (f s)).
Proof.
  rewrite withSpinner_run.
  unfold outcome_of, state_of, trace_of, without_spinner.
  destruct (f s) as [[o s1] t].
  destruct o as [a | e | c]; simpl; repeat split;
    rewrite ?filter_app; simpl; rewrite ?app_nil_r; reflexivity.
Qed.

(** Read by cases: a resolved value is returned, a rejection is re-raised
    unchanged. *)
Corollary withSpinner_returns_and_rethrows {E A} (text : string) (f : M E A) (s : State) :
  (forall a, outcome_of (f s) = Return a -> outcome_of (withSpinner text f s) = Return a)
  /\ (forall e, outcome_of (f s) = Throw e -> outcome_of (withSpinner text f s) = Throw e).
Proof.
  rewrite withSpinner_run. unfold outcome_of.
  destruct (f s) as [[o s1] t]; simpl.
  split; intros x ->; reflexivity.
Qed.

(** ** Empty collections *)

(** The shape every listing action has: fetch behind the spinner, then
    render.  When the rendering of the fetched body is one console line and
    a normal return, that line is all the command prints. *)
Lemma fetch_then_one_line `{JsRuntime} {T} (d : T) (text endpoint : string)
    (params : option (list (string * value))) (render : T -> M JsError unit)
    (line : string) (s : State) :
  render d (after_create s) = (Return tt, after_create s, [Stdout line]) ->
  let run := try_catch (data <- withSpinner text (apiGet (answers d) endpoint params) ;;
                        render data)
                       report_and_exit s in
  printed (trace_of run) = [Stdout line]
  /\ outcome_of run = Return tt
  /\ exit_code (outcome_of run) = 0%Z
  /\ (forall h rows, ~ In (TableOut h rows) (trace_of run)).
Proof.
  intros Hrender run. subst run.
  unfold try_catch, bind. rewrite fetch_answers, Hrender. cbn.
  repeat split.
  intros h rows [Hin | [Hin | [Hin | [Hin | []]]]]; discriminate Hin.
Qed.

Lemma empty_state_line `{JsRuntime} (n : nat) (msg : string)
    (otherwise : M JsError unit) (s : State) :
  n = 0 ->
  (if false then otherwise
   else if Nat.eqb n 0 then out.emptyState msg else otherwise) s
  = (Return tt, s, [Stdout (chalk dim ("  (" ++ msg ++ ")"))]).
Proof.
  intros ->. reflexivity.
Qed.

(** C2. A listing command run without [--json] whose collection, after the
    client-side filters, is empty prints the dimmed empty-state line and
    nothing else (no header, no table) and ends with exit code 0. *)
Theorem listing_empty_state `{JsRuntime} (c : Listing) (a : arguments c)
    (d : payload c) (s : State) :
  remaining c a d = 0 ->
  printed (trace_of (run_listing c a false (answers d) s))
    = [Stdout (chalk dim ("  (" ++ empty_message c a ++ ")"))]
  /\ outcome_of (run_listing c a false (answers d) s) = Return tt
  /\ exit_code (outcome_of (run_listing c a false (answers d) s)) = 0%Z
  /\ (forall h rows, ~ In (TableOut h rows) (trace_of (run_listing c a false (answers d) s))).
Proof.
  intros Hrem.
  destruct c; simpl in a, d, Hrem |- *.
  - apply fetch_then_one_line. now apply empty_state_line.
  - destruct a as [[| ch n] |]; cbn [truthy truthy_string or_else] in Hrem |- *;
      apply fetch_then_one_line; apply empty_state_line;
      cbn [truthy_string];
      rewrite ?Object_entries_filter_length, ?Object_entries_length; exact Hrem.
  - apply fetch_then_one_line. now apply empty_state_line.
  - destruct a as [[[| ch q] |] cat];
      apply fetch_then_one_line; now apply empty_state_line.
  - apply fetch_then_one_line. now apply empty_state_line.
  - apply fetch_then_one_line. now apply empty_state_line.
  - apply fetch_then_one_line. now apply empty_state_line.
  - apply fetch_then_one_line. now apply empty_state_line.
  - apply fetch_then_one_line. now apply empty_state_line.
  - apply fetch_then_one_line. now apply empty_state_line.
  - apply fetch_then_one_line. now apply empty_state_line.
Qed.

(** [tools list --active] on a list whose only tool is inactive. *)
Lemma listing_empty_state_witness :
  remaining ToolsList (true, None, None) [example_tool "fetch" false None None] = 0
  /\ printed (trace_of (@run_listing plain_runtime ToolsList (true, None, None) false
                          (answers [example_tool "fetch" false None None])
                          (initial_state None)))
     = [Stdout "  (no tools found)"].
Proof.
  split; [reflexivity |].
  apply (@listing_empty_state plain_runtime ToolsList (true, None, None)
           [example_tool "fetch" false None None] (initial_state None)).
  reflexivity.
Defined.

(** ** Secrets *)

Lemma secret_rows_of_declared `{JsRuntime} (d : list Secret.t) :
  map secret_row d =
  map (fun x : string * string * string =>
         [ out.text (chalk bold (fst (fst x)));
           out.text (Date_toLocaleString (snd (fst x)));
           out.text (Date_toLocaleString (snd x)) ])
      (map declared d).
Proof.
  rewrite map_map. reflexivity.
Qed.

Lemma secrets_json_of_declared (d : list Secret.t) :
  Forall (fun x => Secret.others x = []) d ->
  to_value d =
  VArray (map (fun x : string * string * string =>
                 VObject [ ("name", VString (fst (fst x)));
                           ("createdAt", VString (snd (fst x)));
                           ("updatedAt", VString (snd x)) ])
              (map declared d)).
Proof.
  intros Hd. unfold to_value, list_ToJSON. f_equal.
  rewrite map_map.
  induction Hd as [| x l Hx _ IH]; simpl; [reflexivity |].
  rewrite IH. f_equal.
  unfold to_value, Secret_ToJSON, prop, to_value, string_ToJSON. rewrite Hx. reflexivity.
Qed.

(** [server secrets --json] prints the response as received. *)
Lemma secrets_json_as_received `{JsRuntime} (d : list Secret.t) (s : State) :
  printed (trace_of (server_secrets (answers d) true s))
  = [Stdout (out.json_text (to_value d))].
Proof.
  unfold server_secrets, try_catch, bind. rewrite fetch_answers. reflexivity.
Qed.

(** The table of [server secrets], cell by cell. *)
Lemma secrets_table_cells `{JsRuntime} (d : list Secret.t) (s : State) :
  d <> [] ->
  printed (trace_of (server_secrets (answers d) false s)) =
  [ Stdout "";
    Stdout (chalk bold_cyan ("Secrets (" ++ nat_to_string (List.length d) ++ ")"));
    Stdout (chalk dim (repeat_string "─"
              (String.length ("Secrets (" ++ nat_to_string (List.length d) ++ ")"))));
    Stdout (chalk blue "ℹ" ++ " " ++ "Secret values are never displayed");
    Stdout "";
    TableOut (map (chalk cyan) ["Name"; "Created"; "Updated"])
             (map (fun x => [ chalk bold (Secret.name x);
                              Date_toLocaleString (Secret.createdAt x);
                              Date_toLocaleString (Secret.updatedAt x) ]) d) ].
Proof.
  intros Hd. unfold server_secrets, try_catch, bind. rewrite fetch_answers.
  destruct d as [| x l]; [congruence |].
  rewrite <- (count_title_length "Secrets (" _ eq_refl).
  cbn. rewrite map_map. reflexivity.
Qed.

(** The table of [server secrets] is a function of the declared
    properties [name], [createdAt], [updatedAt] of the entries: two
    responses that agree on them give the same output, whatever else their
    entries carry. *)
Lemma secrets_table_confined `{JsRuntime} (d1 d2 : list Secret.t) (s1 s2 : State) :
  map declared d1 = map declared d2 ->
  printed (trace_of (server_secrets (answers d1) false s1))
  = printed (trace_of (server_secrets (answers d2) false s2)).
Proof.
  intros Hdecl.
  assert (Hlen : List.length d1 = List.length d2).
  { rewrite <- (length_map declared d1), Hdecl. apply length_map. }
  assert (Hrows : map secret_row d1 = map secret_row d2)
    by (rewrite !secret_rows_of_declared, Hdecl; reflexivity).
  unfold server_secrets, try_catch, bind. rewrite !fetch_answers.
  rewrite Hlen, Hrows.
  destruct (Nat.eqb (List.length d2) 0); reflexivity.
Qed.

(** C1, at a response whose one entry carries a [value] property beside
    the declared ones.  The table is the one printed for the entry without
    the value.  Under [--json] the value is printed: the line holds
    ["value": "hunter2"], and it is not the line printed for the entry
    without the value, although the two agree on [name], [createdAt] and
    [updatedAt]. *)
Theorem secrets_json_prints_extra_fields :
  exists line,
    printed (trace_of (@server_secrets plain_runtime (answers [leaky_secret]) true
                         (initial_state None))) = [Stdout line]
    /\ includes (QuoteJSONString "value" ++ ": " ++ QuoteJSONString "hunter2") line = true
    /\ declared leaky_secret = declared plain_secret
    /\ printed (trace_of (@server_secrets plain_runtime (answers [plain_secret]) true
                            (initial_state None))) <> [Stdout line]
    /\ printed (trace_of (@server_secrets plain_runtime (answers [leaky_secret]) false
                            (initial_state None)))
       = printed (trace_of (@server_secrets plain_runtime (answers [plain_secret]) false
                              (initial_state None))).
Proof.
  eexists. split; [reflexivity |].
  split; [reflexivity |].
  split; [reflexivity |].
  split; [| reflexivity].
  intros Heq. inversion Heq.
Qed.

(** ** [tools list]: the client-side filters *)

Lemma filter_and {A} (f g : A -> bool) (l : list A) :
  filter f (filter g l) = filter (fun x => g x && f x) l.
Proof.
  induction l as [| x l IH]; simpl; [reflexivity |].
  destruct (g x); simpl; [destruct (f x) |]; now rewrite IH.
Qed.

Lemma filter_when {A} (b : bool) (p : A -> bool) (l : list A) :
  (if b then filter p l else l) = filter (fun x => if b then p x else true) l.
Proof.
  destruct b; [reflexivity |].
  induction l as [| x l IH]; simpl; [reflexivity | now rewrite <- IH].
Qed.

Lemma filter_nonempty {A} (o : option string) (p : string -> A -> bool) (l : list A) :
  match o with
  | Some c => if truthy_string c then filter (p c) l else l
  | None => l
  end
  = filter (fun x => match nonempty o with Some c => p c x | None => true end) l.
Proof.
  assert (Hall : filter (fun _ : A => true) l = l).
  { induction l as [| x l IH]; simpl; [reflexivity | now rewrite IH]. }
  destruct o as [c |]; simpl; [| now rewrite Hall].
  destruct (truthy_string c); [reflexivity | now rewrite Hall].
Qed.

(** The three sequential filters keep exactly the entries that satisfy
    every predicate supplied with a non-empty value. *)
Lemma filter_tools_conjunction (opts : ListOpts.t) (data : list Tool.t) :
  filter_tools opts data = filter (supplied_predicates (effective opts)) data.
Proof.
  unfold filter_tools.
  rewrite (filter_when (ListOpts.active opts) (fun t => Tool.active t)).
  rewrite (filter_nonempty (ListOpts.category opts)
             (fun c t => category_is (Tool.category t) c)).
  rewrite (filter_nonempty (ListOpts.tag opts)
             (fun g t => tags_include (Tool.tags t) g)).
  rewrite !filter_and.
  apply filter_ext. intros t.
  unfold supplied_predicates, effective; simpl.
  now rewrite andb_assoc.
Qed.

(** C5, as amended. [tools list] outputs, as JSON or as a table, exactly
    the fetched entries that satisfy the conjunction of the predicates
    supplied with a non-empty value, in the order fetched; the output is a
    function of the fetched list and the flags alone. *)
Theorem tools_list_filters_conjunction `{JsRuntime} (opts : ListOpts.t)
    (data : list Tool.t) (s : State) :
  filter_tools opts data = filter (supplied_predicates (effective opts)) data
  /\ outcome_of (tools_list (answers data) opts s) = Return tt
  /\ printed (trace_of (tools_list (answers data) opts s)) =
     (let shown := filter (supplied_predicates (effective opts)) data in
      if ListOpts.json opts then [Stdout (out.json_text (to_value shown))]
      else match shown with
           | [] => [Stdout (chalk dim "  (no tools found)")]
           | _ => [ Stdout "";
                    Stdout (chalk bold_cyan
                              ("Tools (" ++ nat_to_string (List.length shown) ++ ")"));
                    Stdout (chalk dim (repeat_string "─"
                              (String.length
                                 ("Tools (" ++ nat_to_string (List.length shown) ++ ")"))));
                    TableOut (map (chalk cyan)
                                ["Name"; "Status"; "Version"; "Category"; "Tags"])
                             (map (fun t => map out.String_of_cell (tool_row t)) shown) ]
           end).
Proof.
  split; [apply filter_tools_conjunction |].
  unfold tools_list, try_catch, bind. rewrite fetch_answers.
  rewrite filter_tools_conjunction.
  set (shown := filter (supplied_predicates (effective opts)) data).
  destruct (ListOpts.json opts); [split; reflexivity |].
  destruct shown as [| t l]; [split; reflexivity |].
  rewrite <- (count_title_length "Tools (" _ eq_refl).
  cbn. rewrite map_map. split; reflexivity.
Qed.

(** C5, as stated, fails when a flag is supplied with an empty value:
    [--category ""] leaves a tool of category [net] in the output, although
    it does not satisfy "category equal to the empty string". *)
Lemma empty_category_is_ignored :
  let opts := {| ListOpts.active := false; ListOpts.category := Some "";
                 ListOpts.tag := None; ListOpts.json := false |} in
  let data := [example_tool "fetch" true (Some "net") None] in
  filter (supplied_predicates opts) data = []
  /\ filter_tools opts data = data
  /\ printed (trace_of (@tools_list plain_runtime (answers data) opts (initial_state None)))
     = [ Stdout ""; Stdout "Tools (1)"; Stdout "─────────";
         TableOut ["Name"; "Status"; "Version"; "Category"; "Tags"]
                  [["fetch"; "active"; "v1"; "net"; "none"]] ].
Proof.
  repeat split; reflexivity.
Qed.

(** ** [tools stats]: the success rate *)

(** The guard of the division: a zero total (of either sign) gives ["0%"]
    without dividing. *)
Lemma success_rate_zero_total `{JsRuntime} (s : Stats.t) :
  is_zero (Stats.totalCalls s) = true -> success_rate s = "0%".
Proof.
  unfold success_rate, is_zero. intros Hz.
  rewrite FloatAxioms.eqb_spec in Hz. rewrite FloatAxioms.ltb_spec.
  change (Prim2SF zero) with (S754_zero false) in Hz.
  change (Prim2SF 0) with (S754_zero false).
  destruct (Prim2SF (Stats.totalCalls s)) as [sg | sg | | sg m e];
    unfold SFeqb, SFltb, SFcompare in Hz |- *;
    try destruct sg; simpl in Hz |- *; try discriminate; reflexivity.
Qed.

(** Above zero the rate is the quotient, times 100, to one decimal. *)
Lemma success_rate_positive_total `{JsRuntime} (s : Stats.t) :
  (0 <? Stats.totalCalls s)%float = true ->
  success_rate s
  = toFixed1 (Stats.successfulCalls s / Stats.totalCalls s * 100)%float ++ "%".
Proof.
  unfold success_rate. now intros ->.
Qed.

(** The six cells of a row, for every entry: the rate is not among them. *)
Lemma stats_row_cells `{JsRuntime} (toolName : string) (s : Stats.t) :
  map out.String_of_cell (stats_row (toolName, s))
  = [ chalk bold toolName;
      Number_toString (Stats.totalCalls s);
      chalk green (Number_toString (Stats.successfulCalls s));
      (if (0 <? Stats.failedCalls s)%float
       then chalk red (Number_toString (Stats.failedCalls s)) else "0");
      Number_toString (Stats.averageDurationMs s) ++ "ms";
      date_or (Stats.lastExecutedAt s) (chalk dim "never") ].
Proof.
  unfold stats_row, date_or; simpl.
  destruct (0 <? Stats.failedCalls s)%float; reflexivity.
Qed.

(** C6, evaluated. For an entry with 3 successes out of 4 calls the rate
    computed is ["75.0%"], yet the row rendered has six cells, none of which
    is the rate: the Success column shows the count of successful calls. *)
Theorem stats_row_omits_rate :
  let entry := ("fetch", example_stats 4%float 3%float 1%float) in
  @success_rate plain_runtime (snd entry) = "75.0%"
  /\ map (@out.String_of_cell plain_runtime) (@stats_row plain_runtime entry)
     = ["fetch"; "4"; "3"; "1"; "10ms"; "never"]
  /\ printed (trace_of (@tools_stats plain_runtime (answers [entry]) None false
                          (initial_state None)))
     = [ Stdout ""; Stdout "Execution Stats"; Stdout "───────────────";
         TableOut ["Tool"; "Total"; "Success"; "Failed"; "Avg Duration"; "Last Run"]
                  [["fetch"; "4"; "3"; "1"; "10ms"; "never"]] ].
Proof.
  repeat split; reflexivity.
Qed.

(** ** Error normalization in the API wrapper *)

Lemma formatError_after_create `{JsRuntime} (s : State) (err : Thrown) :
  formatError (after_create s) err = formatError s err.
Proof.
  unfold formatError. now rewrite server_url_after_create.
Qed.

Lemma code_is_other (code : option string) (c : string) :
  code <> Some c -> code_is code c = false.
Proof.
  intros Hne. destruct code as [c' |]; simpl; [| reflexivity].
  destruct (String.eqb_spec c' c); [subst; congruence | reflexivity].
Qed.

Lemma request_rejected `{JsRuntime} {T} (http : Transport T) method endpoint params body s err :
  http (request_from s method endpoint params body) = Rejected err ->
  outcome_of (request http method endpoint params body s) = Throw (thrown_by (formatError s err)).
Proof.
  intros Hrej. rewrite request_run, Hrej. unfold outcome_of; simpl.
  now rewrite formatError_after_create.
Qed.

(** The value a response's message is made of:
    [data?.error || data?.message || err.message]. *)
Lemma value_or_choice (a b : value) :
  value_or a b = if ToBoolean a then a else b.
Proof.
  reflexivity.
Qed.

(** C4, as amended. A failed request makes [apiGet], [apiPost] and
    [apiDelete] throw what [formatError] gives for the rejection, and
    [formatError] gives, by the kind of failure: for a refused or reset
    connection, a new [Error] with the "Cannot connect" message naming the
    server URL; for an HTTP error response whose chosen [error] / [message]
    value converts to a string, a new [Error] combining the status and that
    string; for any other axios failure, a new [Error] saying "Request
    failed" with the detail; these carry a message and no other property.
    A rejection that is an [Error] but no axios error is returned as it
    is, with the properties it owns, and any other rejected value that
    converts to a string becomes a new [Error] of that string. *)
Theorem api_errors_normalized `{JsRuntime} {T} (http : Transport T)
    (endpoint : string) (params : option (list (string * value)))
    (body : option value) (s : State) (err : Thrown) :
  ((http (request_from s GET endpoint params None) = Rejected err ->
    outcome_of (apiGet http endpoint params s) = Throw (thrown_by (formatError s err)))
   /\ (http (request_from s POST endpoint None body) = Rejected err ->
       outcome_of (apiPost http endpoint body s) = Throw (thrown_by (formatError s err)))
   /\ (http (request_from s DELETE endpoint params None) = Rejected err ->
       outcome_of (apiDelete http endpoint params s) = Throw (thrown_by (formatError s err))))
  /\ (forall code response m,
        err = AxiosError code response m ->
        code = Some "ECONNREFUSED" \/ code = Some "ECONNRESET" ->
        formatError s err
        = Returns {| message := "Cannot connect to Architect server at " ++ server_url s
                                ++ "." ++ nl
                                ++ "Make sure the server is running or set ARCHITECT_SERVER env variable.";
                     own := [] |})
  /\ (forall code r m txt,
        err = AxiosError code (Some r) m ->
        code <> Some "ECONNREFUSED" -> code <> Some "ECONNRESET" ->
        ToString (if ToBoolean (optional_field (AxiosResponse.data r) "error")
                  then optional_field (AxiosResponse.data r) "error"
                  else if ToBoolean (optional_field (AxiosResponse.data r) "message")
                       then optional_field (AxiosResponse.data r) "message"
                       else VString m) = Some txt ->
        formatError s err
        = Returns {| message := "Server error (" ++ Number_toString (AxiosResponse.status r)
                                ++ "): " ++ txt;
                     own := [] |})
  /\ (forall code m,
        err = AxiosError code None m ->
        code <> Some "ECONNREFUSED" -> code <> Some "ECONNRESET" ->
        formatError s err = Returns {| message := "Request failed: " ++ m; own := [] |})
  /\ (forall e0, err = OtherError e0 -> formatError s err = Returns e0)
  /\ (forall v txt,
        err = NonError v -> ToString v = Some txt ->
        formatError s err = Returns {| message := txt; own := [] |}).
Proof.
  split; [repeat split; apply request_rejected |].
  split; [| split; [| split; [| split]]].
  - intros code response m -> [-> | ->]; reflexivity.
  - intros code r m txt -> H1 H2 Htxt. unfold formatError.
    rewrite (code_is_other _ _ H1), (code_is_other _ _ H2).
    cbn [orb]. unfold with_text. rewrite !value_or_choice, Htxt. reflexivity.
  - intros code m -> H1 H2. unfold formatError.
    rewrite (code_is_other _ _ H1), (code_is_other _ _ H2). reflexivity.
  - intros e0 ->. reflexivity.
  - intros v txt -> Htxt. unfold formatError, with_text. rewrite Htxt. reflexivity.
Qed.

(** An HTTP 500 answer with body [{error: "boom"}]. *)
Lemma api_errors_normalized_witness :
  outcome_of (@apiGet plain_runtime value (fails http_500) "overview" None (initial_state None))
  = Throw (new_Error "Server error (500): boom").
Proof.
  apply (proj1 (proj1 (@api_errors_normalized plain_runtime value (fails http_500)
                         "overview" None None (initial_state None) http_500))).
  reflexivity.
Defined.

(** C4, as stated, fails for a rejection that is no axios error: the
    [TypeError] of an invalid base URL reaches the caller of [apiGet] as it
    was raised.  Its message is not the "Request failed" one and its
    [code] is there to read. *)
Lemma non_axios_error_passes_through :
  outcome_of (@apiGet plain_runtime value (fails (OtherError invalid_url)) "overview" None
                (initial_state (Some "nowhere")))
  = Throw invalid_url
  /\ message invalid_url = "Invalid URL"
  /\ includes "Request failed" (message invalid_url) = false
  /\ lookup (own invalid_url) "code" = Some (VString "ERR_INVALID_URL").
Proof.
  repeat split; reflexivity.
Qed.

(** Where the chosen value of an HTTP error body does not convert to a
    string, building the message throws, and the wrappers raise that
    [TypeError] in place of the "Server error" message. *)
Lemma unprintable_error_body `{JsRuntime} (s : State) (code : option string)
    (r : AxiosResponse.t) (m : string) :
  code <> Some "ECONNREFUSED" -> code <> Some "ECONNRESET" ->
  ToString (value_or (optional_field (AxiosResponse.data r) "error")
              (value_or (optional_field (AxiosResponse.data r) "message") (VString m)))
  = None ->
  formatError s (AxiosError code (Some r) m) = Throws (new_Error not_primitive).
Proof.
  intros H1 H2 Hnone. unfold formatError.
  rewrite (code_is_other _ _ H1), (code_is_other _ _ H2).
  cbn [orb]. unfold with_text. now rewrite Hnone.
Qed.

Lemma unprintable_error_body_example :
  outcome_of (@apiGet plain_runtime value (fails http_500_object) "overview" None
                (initial_state None))
  = Throw (new_Error "Cannot convert object to primitive value").
Proof.
  reflexivity.
Qed.

(** ** [marketplace install] *)

(** C3. [marketplace install] sends one POST carrying [{id, overwrite}];
    it prints the success line and the hint and ends normally exactly when
    the response body says [success: true]; on [success: false] it prints
    the response's message, or the default one, to standard error and
    exits with code 1. *)
Theorem install_follows_success_flag `{JsRuntime} (http : Transport InstallResult.t)
    (name : string) (overwrite : bool) (s : State) :
  let sent := request_from s POST "marketplace/install" None
                (Some (VObject [("id", VString name); ("overwrite", VBool overwrite)])) in
  let run := marketplace_install http name overwrite s in
  requests (trace_of run) = [sent]
  /\ (forall result,
        http sent = Resolved result -> InstallResult.success result = true ->
        printed (trace_of run)
        = [ Stdout (chalk green "✓" ++ " " ++ "Tool '" ++ name ++ "' installed successfully");
            Stdout (chalk blue "ℹ" ++ " " ++ "Run 'architect tools list' to see it") ]
        /\ outcome_of run = Return tt)
  /\ (forall result,
        http sent = Resolved result -> InstallResult.success result = false ->
        printed (trace_of run)
        = [ Stderr (chalk red "✗" ++ " "
                    ++ (if String.eqb (InstallResult.message result) ""
                        then "Failed to install '" ++ name ++ "'"
                        else InstallResult.message result)) ]
        /\ outcome_of run = Exit 1)
  /\ (exit_code (outcome_of run) = 0%Z <->
      exists result, http sent = Resolved result /\ InstallResult.success result = true).
Proof.
  intros sent run.
  assert (Hrun : run =
    match http sent with
    | Resolved result =>
        if InstallResult.success result then
          (Return tt, after_create s,
           [ SpinnerStart ("Installing " ++ name ++ "..."); Sent sent; SpinnerStop;
             Stdout (chalk green "✓" ++ " " ++ "Tool '" ++ name ++ "' installed successfully");
             Stdout (chalk blue "ℹ" ++ " " ++ "Run 'architect tools list' to see it") ])
        else
          (Exit 1, after_create s,
           [ SpinnerStart ("Installing " ++ name ++ "..."); Sent sent; SpinnerStop;
             Stderr (chalk red "✗" ++ " "
                     ++ (if truthy_string (InstallResult.message result)
                         then InstallResult.message result
                         else "Failed to install '" ++ name ++ "'")) ])
    | Rejected err =>
        (Exit 1, after_create s,
         [ SpinnerStart ("Installing " ++ name ++ "..."); Sent sent; SpinnerFail;
           Stderr (chalk red "✗" ++ " " ++ message (thrown_by (formatError (after_create s) err))) ])
    end).
  { subst run sent. unfold marketplace_install, try_catch, bind.
    rewrite withSpinner_run. unfold apiPost. rewrite request_run.
    rewrite orb_false_r.
    destruct (http _) as [result | err]; [| reflexivity].
    destruct (InstallResult.success result); reflexivity. }
  rewrite Hrun. clear Hrun.
  split; [| split; [| split]].
  - destruct (http sent) as [result | err]; [destruct (InstallResult.success result) |];
      reflexivity.
  - intros result -> ->. split; reflexivity.
  - intros result -> ->. split; [| reflexivity].
    destruct (InstallResult.message result); reflexivity.
  - destruct (http sent) as [result | err].
    + destruct (InstallResult.success result) eqn:Hs; simpl; split.
      * intros _. now exists result.
      * reflexivity.
      * discriminate.
      * intros [r [Hr Hr']]. injection Hr as <-. congruence.
    + simpl. split; [discriminate |].
      intros [r [Hr _]]. discriminate.
Qed.

(** The response [{success: false, message: "conflict"}]. *)
Lemma install_follows_success_flag_witness :
  printed (trace_of (@marketplace_install plain_runtime
                       (answers {| InstallResult.success := false;
                                   InstallResult.message := "conflict" |})
                       "foo" false (initial_state None)))
  = [Stderr "✗ conflict"]
  /\ outcome_of (@marketplace_install plain_runtime
                   (answers {| InstallResult.success := false;
                               InstallResult.message := "conflict" |})
                   "foo" false (initial_state None))
     = Exit 1.
Proof.
  apply (proj1 (proj2 (proj2 (@install_follows_success_flag plain_runtime
           (answers {| InstallResult.success := false; InstallResult.message := "conflict" |})
           "foo" false (initial_state None))))
         {| InstallResult.success := false; InstallResult.message := "conflict" |});
    reflexivity.
Defined.

(** ** The two status commands *)

Lemma cannot_connect_is_recognized `{JsRuntime} (s : State) (code : option string)
    (response : option AxiosResponse.t) (m : string) :
  code = Some "ECONNREFUSED" \/ code = Some "ECONNRESET" ->
  includes "Cannot connect" (message (thrown_by (formatError s (AxiosError code response m)))) = true.
Proof.
  intros [-> | ->]; reflexivity.
Qed.

Lemma server_status_run `{JsRuntime} (http : Transport value) (s : State) :
  server_status http s =
  match http (request_from s GET "overview" None None) with
  | Resolved _ =>
      (Return tt, after_create s,
       [ SpinnerStart "Checking server..."; Sent (request_from s GET "overview" None None);
         SpinnerStop;
         Stdout (chalk green "✓" ++ " " ++ "Server is running at " ++ chalk cyan (server_url s)) ])
  | Rejected err =>
      (Exit 1, after_create s,
       [ SpinnerStart "Checking server..."; Sent (request_from s GET "overview" None None);
         SpinnerFail ]
       ++ (if includes "Cannot connect" (message (thrown_by (formatError s err)))
           then [ Stderr (chalk red "✗" ++ " " ++ "Server is not running at "
                          ++ chalk cyan (server_url s));
                  Stdout (chalk dim "  Set ARCHITECT_SERVER env variable to change the URL") ]
           else [ Stderr (chalk red "✗" ++ " " ++ message (thrown_by (formatError s err))) ]))%list
  end.
Proof.
  unfold server_status, getServerUrl, bind at 1. unfold try_catch, bind.
  rewrite withSpinner_run. unfold apiGet. rewrite request_run.
  destruct (http _) as [d | err]; [reflexivity |].
  rewrite formatError_after_create. cbn.
  destruct (includes "Cannot connect" (message (thrown_by (formatError s err)))); reflexivity.
Qed.

Lemma status_run `{JsRuntime} (http : Transport value) (s : State) :
  status http s =
  match http (request_from s GET "overview" None None) with
  | Resolved _ =>
      (Return tt, after_create s,
       [ Sent (request_from s GET "overview" None None);
         Stdout (chalk green "✓" ++ " Server is running at " ++ chalk cyan (server_url s)) ])
  | Rejected _ =>
      (Exit 1, after_create s,
       [ Sent (request_from s GET "overview" None None);
         Stderr (chalk red "✗" ++ " Server is not running at " ++ chalk cyan (server_url s)) ])
  end.
Proof.
  unfold status, try_catch, bind, apiGet. rewrite request_run.
  destruct (http _) as [d | err]; cbn; now rewrite server_url_after_create.
Qed.

(** What the two commands share: a fetched overview is reported as
    "server running" and the command ends normally; on a refused or reset
    connection [server status] prints the "not running" line and the hint;
    every failure ends either command with exit code 1. *)
Lemma status_commands_agree `{JsRuntime} (s : State) :
  (forall d,
     printed (trace_of (server_status (answers d) s))
     = [Stdout (chalk green "✓" ++ " " ++ "Server is running at " ++ chalk cyan (server_url s))]
     /\ outcome_of (server_status (answers d) s) = Return tt
     /\ printed (trace_of (status (answers d) s))
        = [Stdout (chalk green "✓" ++ " Server is running at " ++ chalk cyan (server_url s))]
     /\ outcome_of (status (answers d) s) = Return tt)
  /\ (forall code response m,
        code = Some "ECONNREFUSED" \/ code = Some "ECONNRESET" ->
        printed (trace_of (server_status (fails (AxiosError code response m)) s))
        = [ Stderr (chalk red "✗" ++ " " ++ "Server is not running at "
                    ++ chalk cyan (server_url s));
            Stdout (chalk dim "  Set ARCHITECT_SERVER env variable to change the URL") ])
  /\ (forall err,
        outcome_of (server_status (fails err) s) = Exit 1
        /\ outcome_of (status (fails err) s) = Exit 1).
Proof.
  split; [| split].
  - intros d. rewrite server_status_run, status_run. repeat split; reflexivity.
  - intros code response m Hcode. rewrite server_status_run. cbn [fails].
    rewrite (cannot_connect_is_recognized s code response m Hcode). reflexivity.
  - intros err. rewrite server_status_run, status_run. split; reflexivity.
Qed.

(** The catch clause of the top-level [status] binds no error: whatever
    the failure, the line it prints is the same. *)
Lemma status_prints_one_line_for_every_failure `{JsRuntime} (s : State) (err : Thrown) :
  printed (trace_of (status (fails err) s))
  = [Stderr (chalk red "✗" ++ " Server is not running at " ++ chalk cyan (server_url s))].
Proof.
  rewrite status_run. reflexivity.
Qed.

(** C7, at an HTTP 500 answer with body [{error: "boom"}].  The failure is
    no connection failure: its message is "Server error (500): boom", which
    is the line [server status] prints.  The top-level [status] prints
    "Server is not running" for it, the line of a refused connection, and
    not the error's message.  Both exit with code 1. *)
Theorem status_hides_http_errors :
  thrown_by (@formatError plain_runtime (initial_state None) http_500)
  = new_Error "Server error (500): boom"
  /\ printed (trace_of (@server_status plain_runtime (fails http_500) (initial_state None)))
     = [Stderr "✗ Server error (500): boom"]
  /\ outcome_of (@server_status plain_runtime (fails http_500) (initial_state None)) = Exit 1
  /\ printed (trace_of (@status plain_runtime (fails http_500) (initial_state None)))
     = [Stderr "✗ Server is not running at http://localhost:3001"]
  /\ printed (trace_of (@status plain_runtime (fails http_500) (initial_state None)))
     = printed (trace_of (@status plain_runtime (fails connection_refused) (initial_state None)))
  /\ outcome_of (@status plain_runtime (fails http_500) (initial_state None)) = Exit 1.
Proof.
  repeat split; reflexivity.
Qed.

(** ** The client singleton *)

Lemma stamped_initial (env : option string) : stamped (initial_state env).
Proof.
  intros c Hc. discriminate Hc.
Qed.

Lemma stamped_after_create (s : State) : stamped s -> stamped (after_create s).
Proof.
  unfold stamped, after_create, client_of. intros Hs c.
  destruct (client s) as [c0 |] eqn:Hc; simpl.
  - rewrite Hc. apply Hs.
  - intros [= <-]. simpl. lia.
Qed.

Lemma fresh_stamp (s : State) :
  stamped s -> instance_id (client_of s) < created (after_create s).
Proof.
  intros Hs. apply (stamped_after_create s Hs). apply client_after_create.
Qed.

(** Without a reset, a client once present is the one every later
    [createClient] returns, and nothing more is built. *)
Lemma run_actions_keep_client (acts : list Action) :
  forall (s : State) (c : AxiosInstance),
    client s = Some c ->
    forallb (fun a => negb (is_reset a)) acts = true ->
    Forall (eq c) (fst (run_actions acts s))
    /\ client (snd (run_actions acts s)) = Some c
    /\ created (snd (run_actions acts s)) = created s.
Proof.
  induction acts as [| a acts IH]; intros s c Hc Hacts; simpl.
  - repeat split; [constructor | assumption].
  - simpl in Hacts. apply andb_true_iff in Hacts as [Ha Hacts].
    destruct a as [url | |]; simpl in Ha; [| | discriminate].
    + exact (IH (state_of (@set_server_env JsError url s)) c Hc Hacts).
    + rewrite createClient_run.
      assert (Hs : after_create s = s) by (unfold after_create; now rewrite Hc).
      assert (Hc' : client_of s = c) by (unfold client_of; now rewrite Hc).
      rewrite Hs, Hc'.
      destruct (IH s c Hc Hacts) as (Hall & Hcl & Hn).
      destruct (run_actions acts s) as [cs s2]; simpl in *.
      split; [constructor; auto | split; assumption].
Qed.

(** C8, as amended. [getServerUrl] reads the environment at each call and
    returns the variable when it is set to a non-empty string, the default
    otherwise.  [createClient] builds the instance at most once: later
    calls return that instance, with the base URL read at its construction,
    whatever the environment has become; after [resetClient] the next call
    builds a new instance from the URL current then. *)
Theorem client_built_once (s : State) (acts : list Action) :
  stamped s ->
  forallb (fun a => negb (is_reset a)) acts = true ->
  (forall u, u <> "" ->
     outcome_of (@getServerUrl JsError (state_of (@set_server_env JsError u s))) = Return u)
  /\ (forall u, env_ARCHITECT_SERVER s = Some u -> u <> "" ->
        outcome_of (@getServerUrl JsError s) = Return u)
  /\ (env_ARCHITECT_SERVER s = None \/ env_ARCHITECT_SERVER s = Some "" ->
      outcome_of (@getServerUrl JsError s) = Return default_server_url)
  /\ (client s = None -> baseURL (client_of s) = server_url s ++ "/api")
  /\ outcome_of (@createClient JsError s) = Return (client_of s)
  /\ Forall (eq (client_of s)) (fst (run_actions (CreateClient :: acts) s))
  /\ created (snd (run_actions (CreateClient :: acts) s)) <= S (created s)
  /\ (exists c2,
        outcome_of (@createClient JsError
                      (state_of (@resetClient JsError
                                   (snd (run_actions (CreateClient :: acts) s)))))
        = Return c2
        /\ baseURL c2 = server_url (snd (run_actions (CreateClient :: acts) s)) ++ "/api"
        /\ instance_id c2 <> instance_id (client_of s)).
Proof.
  intros Hs Hacts.
  assert (Hurl : forall u st, env_ARCHITECT_SERVER st = Some u -> u <> "" ->
                              server_url st = u).
  { intros u st Hu Hne. unfold server_url. rewrite Hu.
    destruct u; [congruence | reflexivity]. }
  split; [| split; [| split; [| split; [| split]]]].
  - intros u Hne. unfold outcome_of, getServerUrl; simpl.
    f_equal. now apply Hurl.
  - intros u Hu Hne. unfold outcome_of, getServerUrl; simpl.
    f_equal. now apply Hurl.
  - intros [Hnone | Hempty]; unfold outcome_of, getServerUrl, server_url; simpl.
    + now rewrite Hnone.
    + now rewrite Hempty.
  - intros Hnone. unfold client_of. now rewrite Hnone.
  - now rewrite createClient_run.
  - assert (Hrun : run_actions (CreateClient :: acts) s =
                   (client_of s :: fst (run_actions acts (after_create s)),
                    snd (run_actions acts (after_create s)))).
    { simpl. rewrite createClient_run.
      now destruct (run_actions acts (after_create s)). }
    rewrite Hrun; simpl.
    destruct (run_actions_keep_client acts (after_create s) (client_of s)
                (client_after_create s) Hacts) as (Hall & Hcl & Hn).
    split; [now constructor |].
    split.
    + rewrite Hn. unfold after_create. destruct (client s); simpl; lia.
    + eexists. split; [rewrite createClient_run; reflexivity |].
      split; [reflexivity |].
      unfold client_of at 1; simpl.
      pose proof (fresh_stamp s Hs) as Hfresh. rewrite <- Hn in Hfresh. lia.
Qed.

(** Two [createClient] calls around a change of the variable. *)
Lemma client_built_once_witness :
  Forall (eq (client_of (initial_state (Some "http://a.example:3001"))))
         (fst (run_actions [CreateClient; SetServerEnv "http://b.example:3001"; CreateClient]
                           (initial_state (Some "http://a.example:3001")))).
Proof.
  destruct (client_built_once (initial_state (Some "http://a.example:3001"))
              [SetServerEnv "http://b.example:3001"; CreateClient]
              (stamped_initial _) eq_refl)
    as (_ & _ & _ & _ & _ & Hall & _).
  exact Hall.
Defined.

(** C8, as stated, fails when the variable is set to the empty string:
    [getServerUrl] then returns the default, not the variable. *)
Lemma empty_server_variable_is_ignored :
  env_ARCHITECT_SERVER (initial_state (Some "")) = Some ""
  /\ outcome_of (@getServerUrl JsError (initial_state (Some "")))
     = Return "http://localhost:3001".
Proof.
  split; reflexivity.
Qed.

(** ** [tools stats <name> --json] *)

Lemma lookup_none_filter {T} (d : list (string * T)) (n : string) :
  lookup d n = None -> filter (fun kv => String.eqb (fst kv) n) d = [].
Proof.
  induction d as [| [k v] d IH]; simpl; [reflexivity |].
  destruct (String.eqb k n); [discriminate | exact IH].
Qed.

(** A name that is neither an own key nor [__proto__] reads as [undefined]
    or as an inherited function; either way the property is dropped. *)
Lemma absent_member_serializes_empty `{JsRuntime} (d : list (string * Stats.t)) (n : string) :
  lookup d n = None -> n <> "__proto__" ->
  out.json_text (VObject [(n, member d n)]) = "{}".
Proof.
  intros Hl Hn. unfold member. rewrite Hl.
  destruct (String.eqb_spec n "__proto__") as [-> | _]; [congruence |].
  destruct (existsb (String.eqb n) Object_prototype_functions); reflexivity.
Qed.

(** An empty name is read as no name at all. *)
Lemma empty_name_is_no_name `{JsRuntime} (http : Transport (list (string * Stats.t)))
    (json : bool) (s : State) :
  tools_stats http (Some "") json s = tools_stats http None json s.
Proof.
  reflexivity.
Qed.

(** C10, as amended. For a non-empty name, [tools stats <name> --json]
    prints the JSON of the one-property object that maps the name to the
    fetched mapping's value there, and ends normally; when the name is no
    key of the mapping (and is not [__proto__]) that output is exactly
    [{}], where the table path prints the empty-state line. *)
Theorem stats_json_by_name `{JsRuntime} (d : list (string * Stats.t)) (n : string)
    (s : State) :
  n <> "" ->
  printed (trace_of (tools_stats (answers d) (Some n) true s))
  = [Stdout (out.json_text (VObject [(n, member d n)]))]
  /\ outcome_of (tools_stats (answers d) (Some n) true s) = Return tt
  /\ (lookup d n = None -> n <> "__proto__" ->
      printed (trace_of (tools_stats (answers d) (Some n) true s)) = [Stdout "{}"])
  /\ (lookup d n = None ->
      printed (trace_of (tools_stats (answers d) (Some n) false s))
      = [Stdout (chalk dim ("  (" ++ ("no stats for '" ++ n ++ "'") ++ ")"))]).
Proof.
  intros Hn.
  destruct n as [| ch n]; [congruence |].
  unfold tools_stats, try_catch, bind. rewrite !fetch_answers.
  cbn [truthy_string].
  split; [reflexivity |]. split; [reflexivity |]. split.
  - intros Hl Hp. cbv beta iota.
    change (out.json (VObject [(String ch n, member d (String ch n))]) (after_create s))
      with (@Return JsError unit tt, after_create s,
            [Stdout (out.json_text (VObject [(String ch n, member d (String ch n))]))]).
    rewrite (absent_member_serializes_empty d _ Hl Hp). reflexivity.
  - intros Hl.
    rewrite (Object_entries_filter_nil _ d (lookup_none_filter d _ Hl)). reflexivity.
Qed.

(** A name the fetched mapping does not have. *)
Lemma stats_json_by_name_witness :
  printed (trace_of (@tools_stats plain_runtime
                       (answers [("fetch", example_stats 4%float 3%float 1%float)])
                       (Some "missing") true (initial_state None)))
  = [Stdout "{}"].
Proof.
  apply (proj1 (proj2 (proj2 (@stats_json_by_name plain_runtime
           [("fetch", example_stats 4%float 3%float 1%float)] "missing"
           (initial_state None) ltac:(discriminate))))); [reflexivity | discriminate].
Defined.

(** C10, as stated, fails for the empty name: [tools stats "" --json]
    prints the whole mapping, not the one-property object for the name
    (which would print as [{}], the name being no key). *)
Lemma empty_stats_name_prints_everything :
  let d := [("fetch", example_stats 4%float 3%float 1%float)] in
  lookup d "" = None
  /\ @out.json_text plain_runtime (VObject [("", member d "")]) = "{}"
  /\ exists line,
       printed (trace_of (@tools_stats plain_runtime (answers d) (Some "") true
                            (initial_state None))) = [Stdout line]
       /\ line = @out.json_text plain_runtime (to_value d)
       /\ includes "totalCalls" line = true.
Proof.
  repeat split. eexists. repeat split.
Qed.

(** The one name outside the amended statement: [__proto__] reads as
    [Object.prototype], which serializes as an empty object. *)
Lemma proto_name_prints_prototype :
  exists line,
    printed (trace_of (@tools_stats plain_runtime
                         (answers [("fetch", example_stats 4%float 3%float 1%float)])
                         (Some "__proto__") true (initial_state None))) = [Stdout line]
    /\ includes (QuoteJSONString "__proto__" ++ ": {}") line = true.
Proof.
  eexists. split; reflexivity.
Qed.

(** ** Steps that only print *)

Lemma quiet_ret {E} : quiet (@ret E unit tt).
Proof.
  intros s. exists []. split; reflexivity.
Qed.

Lemma quiet_emit {E} (ev : Event) : is_stdout ev = true -> quiet (@emit E ev).
Proof.
  intros Hev s. exists [ev]. split; [reflexivity |]. simpl. now rewrite Hev.
Qed.

Lemma quiet_bind {E} (m : M E unit) (k : unit -> M E unit) :
  quiet m -> (forall u, quiet (k u)) -> quiet (bind m k).
Proof.
  intros Hm Hk s. unfold bind.
  destruct (Hm s) as (t1 & -> & H1).
  destruct (Hk tt s) as (t2 & -> & H2).
  exists (t1 ++ t2)%list. split; [reflexivity |].
  rewrite forallb_app, H1, H2. reflexivity.
Qed.

Lemma quiet_for_each {E A} (f : A -> M E unit) (xs : list A) :
  (forall x, quiet (f x)) -> quiet (for_each f xs).
Proof.
  intros Hf. induction xs as [| x xs IH]; simpl.
  - apply quiet_ret.
  - apply quiet_bind; [apply Hf | intros _; exact IH].
Qed.

Lemma quiet_getServerUrl_then {E} (k : string -> M E unit) :
  (forall url, quiet (k url)) -> quiet (bind getServerUrl k).
Proof.
  intros Hk s. unfold bind, getServerUrl.
  destruct (Hk (server_url s) s) as (t & -> & Ht).
  exists t. split; [reflexivity | exact Ht].
Qed.

Ltac quiet_step :=
  match goal with
  | |- quiet (bind getServerUrl _) => apply quiet_getServerUrl_then; intros ?
  | |- quiet (bind _ _) => apply quiet_bind; [| intros ?]
  | |- quiet (ret tt) => apply quiet_ret
  | |- quiet (emit _) => apply quiet_emit; reflexivity
  | |- quiet (for_each _ _) => apply quiet_for_each; intros ?
  | |- quiet (if ?b then _ else _) => destruct b
  | |- quiet (match ?x with _ => _ end) => destruct x
  end.

Ltac quiet_tac :=
  repeat first
    [ quiet_step
    | progress unfold out.header, out.table, out.json, out.emptyState, out.info,
        out.success, out.label, out.printServerUrl, search_block, show_tool ].

(** One fetch behind the spinner, then a step that only prints: the shape
    of every action but the two status commands and [install]. *)
Lemma command_run `{JsRuntime} {T} (http : Transport T) (method : Method)
    (endpoint : string) (params : option (list (string * value))) (body : option value)
    (text : string) (render : T -> M JsError unit) (s : State) :
  (forall d, quiet (render d)) ->
  try_catch (data <- withSpinner text (request http method endpoint params body) ;;
             render data)
            report_and_exit s
  = match http (request_from s method endpoint params body) with
    | Resolved d =>
        (Return tt, after_create s,
         [ SpinnerStart text; Sent (request_from s method endpoint params body);
           SpinnerStop ] ++ trace_of (render d (after_create s)))%list
    | Rejected err =>
        (Exit 1, after_create s,
         [ SpinnerStart text; Sent (request_from s method endpoint params body);
           SpinnerFail; Stderr (chalk red "✗" ++ " " ++ message (thrown_by (formatError s err))) ])
    end.
Proof.
  intros Hq. unfold try_catch, bind. rewrite withSpinner_run, request_run.
  destruct (http _) as [d | err].
  - destruct (Hq d (after_create s)) as (evs & -> & _). reflexivity.
  - rewrite formatError_after_create. reflexivity.
Qed.

Lemma quiet_trace {E} (m : M E unit) (s : State) :
  quiet m -> forallb is_stdout (trace_of (m s)) = true.
Proof.
  intros Hq. destruct (Hq s) as (evs & -> & Hevs). exact Hevs.
Qed.

(** Every listing action has that shape, with its own endpoint, query
    parameters and spinner text. *)
Lemma listing_shape `{JsRuntime} (c : Listing) (a : arguments c) (json : bool)
    (http : Transport (payload c)) (s : State) :
  exists render : payload c -> M JsError unit,
    (forall d, quiet (render d))
    /\ run_listing c a json http s
       = match http (request_from s GET (listing_endpoint c) (listing_params c a) None) with
         | Resolved d =>
             (Return tt, after_create s,
              [ SpinnerStart (listing_spinner c a);
                Sent (request_from s GET (listing_endpoint c) (listing_params c a) None);
                SpinnerStop ] ++ trace_of (render d (after_create s)))%list
         | Rejected err =>
             (Exit 1, after_create s,
              [ SpinnerStart (listing_spinner c a);
                Sent (request_from s GET (listing_endpoint c) (listing_params c a) None);
                SpinnerFail;
                Stderr (chalk red "✗" ++ " " ++ message (thrown_by (formatError s err))) ])
         end.
Proof.
  destruct c; simpl in a, http |- *;
    eexists; (split; [| apply command_run]); intros d; quiet_tac.
Qed.

Lemma stdout_only (evs : list Event) :
  forallb is_stdout evs = true ->
  requests evs = [] /\ printed evs = evs /\ without_spinner evs = evs
  /\ forallb is_console evs = true.
Proof.
  induction evs as [| ev evs IH]; simpl; [auto |].
  intros Hev. apply andb_true_iff in Hev as [Hev Hevs].
  destruct (IH Hevs) as (Hr & Hp & Hw & Hc).
  destruct ev; simpl in Hev |- *; try discriminate; rewrite ?Hr, ?Hp, ?Hw, ?Hc; auto.
Qed.

(** ** The listing family: requests, failures, spinner, JSON *)

(** X1. Whatever the options, a listing command sends exactly one GET, to
    its endpoint and with its query parameters.  When that request is
    rejected the command exits with code 1; it ends with code 0 only when
    the request resolved. *)
Theorem listing_succeeds_iff_request_does `{JsRuntime} (c : Listing) (a : arguments c)
    (json : bool) (http : Transport (payload c)) (s : State) :
  let r := request_from s GET (listing_endpoint c) (listing_params c a) None in
  let run := run_listing c a json http s in
  requests (trace_of run) = [r]
  /\ ((exists err, http r = Rejected err) -> outcome_of run = Exit 1)
  /\ (exit_code (outcome_of run) = 0%Z -> exists d, http r = Resolved d).
Proof.
  intros r run. subst r run.
  destruct (listing_shape c a json http s) as (render & Hq & ->).
  destruct (http _) as [d | err].
  - destruct (Hq d (after_create s)) as (evs & -> & Hevs).
    destruct (stdout_only evs Hevs) as (Hr & _).
    unfold trace_of, outcome_of, requests in *; simpl. rewrite Hr.
    repeat split; eauto.
    intros [err Herr]. discriminate.
  - unfold trace_of, outcome_of; simpl.
    repeat split; eauto. discriminate.
Qed.

(** [tools list] against a server that refuses the connection. *)
Lemma listing_succeeds_iff_request_does_witness :
  outcome_of (@run_listing plain_runtime ToolsList (false, None, None) false
                (fails connection_refused) (initial_state None)) = Exit 1.
Proof.
  apply (@listing_succeeds_iff_request_does plain_runtime ToolsList (false, None, None) false
           (fails connection_refused) (initial_state None)).
  exists connection_refused. reflexivity.
Defined.

(** X2. When its request fails, a listing command prints one line on
    standard error and exits with code 1: no header, no table, no partial
    output, with or without [--json].  The line is the message of the
    error the API wrapper throws: the one [formatError] returns or, where
    building the message throws, that of the [TypeError]. *)
Theorem listing_failure_prints_one_error `{JsRuntime} (c : Listing) (a : arguments c)
    (json : bool) (http : Transport (payload c)) (s : State) (err : Thrown) :
  http (request_from s GET (listing_endpoint c) (listing_params c a) None) = Rejected err ->
  printed (trace_of (run_listing c a json http s))
  = [Stderr (chalk red "✗" ++ " " ++ message (thrown_by (formatError s err)))]
  /\ outcome_of (run_listing c a json http s) = Exit 1.
Proof.
  intros Hrej.
  destruct (listing_shape c a json http s) as (render & Hq & ->).
  rewrite Hrej. split; reflexivity.
Qed.

(** An HTTP 500 answer whose [error] member does not convert to a string:
    the line printed is the [TypeError]'s. *)
Lemma listing_failure_on_unprintable_body :
  printed (trace_of (@run_listing plain_runtime ToolsList (false, None, None) false
                       (fails http_500_object) (initial_state None)))
  = [Stderr "✗ Cannot convert object to primitive value"].
Proof.
  reflexivity.
Qed.

(** [server logs --json] against a server that refuses the connection. *)
Lemma listing_failure_prints_one_error_witness :
  printed (trace_of (@run_listing plain_runtime ServerLogs ("50", None) true
                       (fails connection_refused) (initial_state None)))
  = [Stderr (String.append "✗ Cannot connect to Architect server at http://localhost:3001."
               (nl ++ "Make sure the server is running or set ARCHITECT_SERVER env variable."))]
  /\ outcome_of (@run_listing plain_runtime ServerLogs ("50", None) true
                   (fails connection_refused) (initial_state None)) = Exit 1.
Proof.
  apply (@listing_failure_prints_one_error plain_runtime ServerLogs ("50", None) true
           (fails connection_refused) (initial_state None) connection_refused).
  reflexivity.
Defined.

(** X3. In every run of a listing command the spinner is started first and
    closed (stopped on success, marked failed on error) before anything is
    written to the console; it is never left running. *)
Theorem listing_spinner_closed_before_output `{JsRuntime} (c : Listing) (a : arguments c)
    (json : bool) (http : Transport (payload c)) (s : State) :
  let r := request_from s GET (listing_endpoint c) (listing_params c a) None in
  exists close evs,
    trace_of (run_listing c a json http s)
    = ([SpinnerStart (listing_spinner c a); Sent r; close] ++ evs)%list
    /\ forallb is_console evs = true
    /\ (close = SpinnerStop <-> exists d, http r = Resolved d)
    /\ (close = SpinnerFail <-> exists err, http r = Rejected err).
Proof.
  intros r. subst r.
  destruct (listing_shape c a json http s) as (render & Hq & ->).
  destruct (http _) as [d | err]; unfold trace_of; simpl.
  - destruct (Hq d (after_create s)) as (evs & -> & Hevs).
    destruct (stdout_only evs Hevs) as (_ & _ & _ & Hc).
    exists SpinnerStop, evs.
    repeat split; eauto; try discriminate.
    intros [err Herr]. discriminate.
  - eexists SpinnerFail, _. repeat split; eauto; try discriminate.
    intros [d Hd]. discriminate.
Qed.

Ltac run_fetch Hres :=
  unfold try_catch, bind, apiGet, apiPost, apiDelete;
  rewrite withSpinner_run, request_run;
  cbn [BrowseOpts.query BrowseOpts.category LogsOpts.limit LogsOpts.tool app];
  rewrite Hres.

Lemma listing_json_run `{JsRuntime} (c : Listing) (a : arguments c)
    (http : Transport (payload c)) (s : State) (d : payload c) :
  http (request_from s GET (listing_endpoint c) (listing_params c a) None) = Resolved d ->
  printed (trace_of (run_listing c a true http s))
  = [Stdout (out.json_text (json_payload c a d))]
  /\ outcome_of (run_listing c a true http s) = Return tt.
Proof.
  intros Hres.
  destruct c; simpl in a, d, http, Hres |- *.
  - unfold tools_list. run_fetch Hres. split; reflexivity.
  - unfold tools_stats. run_fetch Hres. split; reflexivity.
  - unfold marketplace_list. run_fetch Hres. split; reflexivity.
  - unfold marketplace_browse. run_fetch Hres. split; reflexivity.
  - unfold marketplace_search. run_fetch Hres. split; reflexivity.
  - unfold server_logs. run_fetch Hres. split; reflexivity.
  - unfold server_permissions. run_fetch Hres. split; reflexivity.
  - unfold server_schedules. run_fetch Hres. split; reflexivity.
  - unfold server_webhooks. run_fetch Hres. split; reflexivity.
  - unfold server_pipelines. run_fetch Hres. split; reflexivity.
  - unfold server_secrets. run_fetch Hres. split; reflexivity.
Qed.

(** X4. With [--json] a listing command whose request resolves prints one
    line and nothing else: the JSON text of the collection it would have
    rendered (for [tools list] the filtered list, for [tools stats <name>]
    the one-property object), with no header, table, hint or empty-state
    line, and it ends normally. *)
Theorem listing_json_is_the_collection `{JsRuntime} (c : Listing) (a : arguments c)
    (http : Transport (payload c)) (s : State) (d : payload c) :
  http (request_from s GET (listing_endpoint c) (listing_params c a) None) = Resolved d ->
  printed (trace_of (run_listing c a true http s))
  = [Stdout (out.json_text (json_payload c a d))]
  /\ outcome_of (run_listing c a true http s) = Return tt
  /\ (forall h rows, ~ In (TableOut h rows) (trace_of (run_listing c a true http s))).
Proof.
  intros Hres.
  destruct (listing_json_run c a http s d Hres) as [Hp Ho].
  repeat split; [exact Hp | exact Ho |].
  intros h rows Hin.
  assert (Hin' : In (TableOut h rows) (printed (trace_of (run_listing c a true http s)))).
  { apply filter_In. split; [exact Hin | reflexivity]. }
  rewrite Hp in Hin'. destruct Hin' as [Heq | []]. discriminate Heq.
Qed.

(** [marketplace search --json] with one entry found. *)
Lemma listing_json_is_the_collection_witness :
  outcome_of (@run_listing plain_runtime MarketplaceSearch "git" true
                (answers [example_entry]) (initial_state None)) = Return tt.
Proof.
  apply (@listing_json_is_the_collection plain_runtime MarketplaceSearch "git"
           (answers [example_entry]) (initial_state None) [example_entry]).
  reflexivity.
Defined.

Lemma length_zero_nil {A} (l : list A) : List.length l = 0 -> l = [].
Proof.
  destruct l; [reflexivity | discriminate].
Qed.

(** X5. With [--json] an empty collection is printed as the empty array
    [[]], never as the empty-state line: for every listing command that
    returns an array, whenever nothing is left after the client-side
    filters. *)
Theorem listing_json_empty_array `{JsRuntime} (c : Listing) (a : arguments c)
    (d : payload c) (s : State) :
  c <> ToolsStats ->
  remaining c a d = 0 ->
  printed (trace_of (run_listing c a true (answers d) s)) = [Stdout "[]"].
Proof.
  intros Hc Hrem.
  destruct (listing_json_run c a (answers d) s d eq_refl) as [-> _].
  destruct c; simpl in a, d, Hrem |- *; try congruence;
    apply length_zero_nil in Hrem; try (subst d; reflexivity).
  change (filter_tools {| ListOpts.active := fst (fst a);
                          ListOpts.category := snd (fst a);
                          ListOpts.tag := snd a;
                          ListOpts.json := true |} d)
    with (filter_tools {| ListOpts.active := fst (fst a);
                          ListOpts.category := snd (fst a);
                          ListOpts.tag := snd a;
                          ListOpts.json := false |} d).
  rewrite Hrem. reflexivity.
Qed.

(** [tools list --active --json] on a list whose only tool is inactive. *)
Lemma listing_json_empty_array_witness :
  printed (trace_of (@run_listing plain_runtime ToolsList (true, None, None) true
                       (answers [example_tool "fetch" false None None])
                       (initial_state None)))
  = [Stdout "[]"].
Proof.
  apply (@listing_json_empty_array plain_runtime ToolsList (true, None, None)
           [example_tool "fetch" false None None] (initial_state None));
    [discriminate | reflexivity].
Defined.

(** ** [tools source] and [tools reload] *)





(** X7. [tools reload] sends one POST to [tools/reload] without a body and,
    once it resolves, reports success with the three counts and ends
    normally whatever the counts are: a reload in which tools failed to
    load is still reported with the success line and exit code 0. *)
Theorem tools_reload_reports_success `{JsRuntime} `{ChalkPalette}
    (http : Transport ReloadResult.t) (s : State) (result : ReloadResult.t) :
  http (request_from s POST "tools/reload" None None) = Resolved result ->
  requests (trace_of (tools_reload http s)) = [request_from s POST "tools/reload" None None]
  /\ printed (trace_of (tools_reload http s))
     = [ Stdout (chalk green "✓" ++ " " ++ "Tools reloaded");
         Stdout (chalk dim "Loaded:" ++ " "
                 ++ chalk_white (Number_toString (ReloadResult.loaded result)));
         Stdout (chalk dim "Skipped:" ++ " "
                 ++ chalk_white (Number_toString (ReloadResult.skipped result)));
         Stdout (chalk dim "Failed:" ++ " "
                 ++ chalk_white (Number_toString (ReloadResult.failed result))) ]
  /\ exit_code (outcome_of (tools_reload http s)) = 0%Z.
Proof.
  intros Hres. unfold tools_reload. run_fetch Hres.
  repeat split; reflexivity.
Qed.

(** A reload in which two tools failed. *)
Lemma tools_reload_reports_success_witness :
  exit_code (outcome_of (@tools_reload plain_runtime plain_palette
                           (answers {| ReloadResult.loaded := 0%float;
                                       ReloadResult.skipped := 0%float;
                                       ReloadResult.failed := 2%float |})
                           (initial_state None))) = 0%Z.
Proof.
  apply (@tools_reload_reports_success plain_runtime plain_palette
           (answers {| ReloadResult.loaded := 0%float; ReloadResult.skipped := 0%float;
                       ReloadResult.failed := 2%float |})
           (initial_state None)
           {| ReloadResult.loaded := 0%float; ReloadResult.skipped := 0%float;
              ReloadResult.failed := 2%float |}).
  reflexivity.
Defined.

(** ** The cache commands and the overview *)

(** X8. [server cache clear [tool]] sends one DELETE to [cache], with the
    query parameter [tool] exactly when a non-empty tool name was given, and
    reports the count with the noun [entry] exactly when the count equals 1
    and [entries] otherwise; that choice of noun is the one [count] makes
    for [entry]/[entries]. *)
Theorem cache_clear_request_and_noun `{JsRuntime} (http : Transport ClearResult.t)
    (tool : option string) (s : State) (result : ClearResult.t) :
  let params := match nonempty tool with
                | Some t => Some [("tool", VString t)]
                | None => None
                end in
  http (request_from s DELETE "cache" params None) = Resolved result ->
  requests (trace_of (cache_clear http tool s)) = [request_from s DELETE "cache" params None]
  /\ printed (trace_of (cache_clear http tool s))
     = [Stdout (chalk green "✓" ++ " "
                ++ ("Cleared " ++ Number_toString (ClearResult.cleared result) ++ " cache "
                    ++ (if (ClearResult.cleared result =? 1)%float
                        then "entry" else "entries")))]
  /\ outcome_of (cache_clear http tool s) = Return tt
  /\ cleared_noun (ClearResult.cleared result)
     = out.count_word (ClearResult.cleared result) "entry" (Some "entries").
Proof.
  intros params Hres. subst params.
  assert (Hnoun : cleared_noun (ClearResult.cleared result)
                  = out.count_word (ClearResult.cleared result) "entry" (Some "entries")).
  { unfold cleared_noun, out.count_word.
    destruct (ClearResult.cleared result =? 1)%float; reflexivity. }
  unfold cache_clear.
  destruct tool as [[| ch t] |]; cbn [nonempty truthy_string] in Hres |- *;
    run_fetch Hres; repeat split; try reflexivity; exact Hnoun.
Qed.

(** [server cache clear ""]: the empty tool name sends no parameter. *)
Lemma cache_clear_request_and_noun_witness :
  requests (trace_of (@cache_clear plain_runtime
                        (answers {| ClearResult.cleared := 1%float |}) (Some "")
                        (initial_state None)))
  = [request_from (initial_state None) DELETE "cache" None None].
Proof.
  apply (@cache_clear_request_and_noun plain_runtime
           (answers {| ClearResult.cleared := 1%float |}) (Some "") (initial_state None)
           {| ClearResult.cleared := 1%float |}).
  reflexivity.
Defined.

Lemma not_positive_of_zero (x : number) : is_zero x = true -> (0 <? x)%float = false.
Proof.
  unfold is_zero. intros Hz.
  rewrite FloatAxioms.eqb_spec in Hz. rewrite FloatAxioms.ltb_spec.
  change (Prim2SF zero) with (S754_zero false) in Hz.
  change (Prim2SF 0) with (S754_zero false).
  destruct (Prim2SF x) as [sg | sg | | sg m e];
    unfold SFeqb, SFltb, SFcompare in Hz |- *;
    try destruct sg; simpl in Hz |- *; try discriminate; reflexivity.
Qed.

(** X9. [server overview] displays its success rate, in the fourth row of
    the table, and guards the division: with no executions recorded
    ([totalCalls] zero of either sign) the row reads [0.0%]. *)
Theorem overview_rate_is_shown_and_guarded `{JsRuntime} (http : Transport Overview.t)
    (s : State) (x : Overview.t) :
  http (request_from s GET "overview" None None) = Resolved x ->
  (exists rows,
     tables (trace_of (server_overview http false s))
     = [(map (chalk cyan) ["Metric"; "Value"], rows)]
     /\ List.length rows = 10
     /\ nth_error rows 3 = Some ["Success Rate"; chalk green (overview_rate x ++ "%")])
  /\ (is_zero (Overview.totalCalls x) = true -> overview_rate x = "0.0")
  /\ ((0 <? Overview.totalCalls x)%float = true ->
      overview_rate x
      = toFixed1 (Overview.totalSuccess x / Overview.totalCalls x * 100)%float).
Proof.
  intros Hres. split; [| split].
  - unfold server_overview. run_fetch Hres.
    eexists. split; [reflexivity |]. split; reflexivity.
  - intros Hz. unfold overview_rate. now rewrite (not_positive_of_zero _ Hz).
  - intros Hpos. unfold overview_rate. now rewrite Hpos.
Qed.

(** An overview with no executions. *)
Lemma overview_rate_is_shown_and_guarded_witness :
  @overview_rate plain_runtime (example_overview 0%float 0%float) = "0.0".
Proof.
  apply (proj1 (proj2 (@overview_rate_is_shown_and_guarded plain_runtime
                         (answers (example_overview 0%float 0%float)) (initial_state None)
                         (example_overview 0%float 0%float) eq_refl))).
  reflexivity.
Defined.

(** Where no key is an array index, [Object.entries] keeps the order
    received. *)
Lemma Object_entries_plain {T} (d : list (string * T)) :
  forallb (fun kv => negb (is_index_key kv)) d = true -> Object_entries d = d.
Proof.
  intros Hd. unfold Object_entries.
  assert (Hidx : indexed_ascending d = []).
  { induction d as [| kv rest IH]; [reflexivity |].
    cbn [forallb] in Hd. apply andb_prop in Hd as [Hkv Hrest].
    cbn [indexed_ascending]. unfold is_index_key in Hkv.
    destruct (array_index (fst kv)); [discriminate Hkv | exact (IH Hrest)]. }
  rewrite Hidx. cbn [app].
  induction d as [| kv rest IH]; [reflexivity |].
  cbn [forallb] in Hd. apply andb_prop in Hd as [Hkv Hrest].
  cbn [filter]. rewrite Hkv. f_equal. apply IH; [exact Hrest |].
  cbn [indexed_ascending] in Hidx. unfold is_index_key in Hkv.
  destruct (array_index (fst kv)); [discriminate Hkv | exact Hidx].
Qed.

(** X10. [server cache stats] prints the four-row metrics table and, only
    when some tool has cached entries, a second table with one row per
    tool, in the order of [Object.entries]: the tools whose names are
    array indices first, by ascending index, then the others in the order
    received.  With no per-tool entries there is exactly one table. *)
Theorem cache_stats_tables `{JsRuntime} (http : Transport CacheStats.t)
    (s : State) (x : CacheStats.t) :
  http (request_from s GET "cache" None None) = Resolved x ->
  tables (trace_of (cache_stats http false s))
  = ((map (chalk cyan) ["Metric"; "Value"], map (map out.String_of_cell) (cache_rows x))
     :: match CacheStats.entriesByTool x with
        | [] => []
        | _ :: _ =>
            [(map (chalk cyan) ["Tool"; "Entries"],
              map (fun kv => [chalk bold (fst kv); Number_toString (snd kv)])
                  (indexed_ascending (CacheStats.entriesByTool x)
                   ++ filter (fun kv => negb (is_index_key kv))
                        (CacheStats.entriesByTool x)))]
        end)%list
  /\ Sorted index_le (indexed_ascending (CacheStats.entriesByTool x))
  /\ Permutation (indexed_ascending (CacheStats.entriesByTool x)
                  ++ filter (fun kv => negb (is_index_key kv)) (CacheStats.entriesByTool x))
                 (CacheStats.entriesByTool x)
  /\ outcome_of (cache_stats http false s) = Return tt.
Proof.
  intros Hres. split; [| split; [apply indexed_ascending_sorted | split]].
  - unfold cache_stats. run_fetch Hres.
    change (indexed_ascending (CacheStats.entriesByTool x)
            ++ filter (fun kv => negb (is_index_key kv)) (CacheStats.entriesByTool x))%list
      with (Object_entries (CacheStats.entriesByTool x)).
    generalize (Object_entries (CacheStats.entriesByTool x)) as shown. intros shown.
    destruct (CacheStats.entriesByTool x) as [| kv entries]; [reflexivity |].
    cbn. rewrite map_map. reflexivity.
  - apply (Object_entries_perm (CacheStats.entriesByTool x)).
  - unfold cache_stats. run_fetch Hres.
    generalize (Object_entries (CacheStats.entriesByTool x)) as shown. intros shown.
    destruct (CacheStats.entriesByTool x) as [| kv entries]; reflexivity.
Qed.

(** Tools named [zeta], [10] and [9], received in that order, are listed
    as [9], [10], [zeta]. *)
Lemma cache_stats_tables_witness :
  tables (trace_of (@cache_stats plain_runtime
                      (answers {| CacheStats.totalEntries := 6%float;
                                  CacheStats.hits := 0%float;
                                  CacheStats.misses := 0%float;
                                  CacheStats.hitRate := 0%float;
                                  CacheStats.entriesByTool :=
                                    [("zeta", 1%float); ("10", 2%float); ("9", 3%float)] |})
                      false (initial_state None)))
  = [ (["Metric"; "Value"],
       [["Total Entries"; "6"]; ["Hits"; "0"]; ["Misses"; "0"]; ["Hit Rate"; "0%"]]);
      (["Tool"; "Entries"], [["9"; "3"]; ["10"; "2"]; ["zeta"; "1"]]) ].
Proof.
  apply (@cache_stats_tables plain_runtime
           (answers {| CacheStats.totalEntries := 6%float; CacheStats.hits := 0%float;
                       CacheStats.misses := 0%float; CacheStats.hitRate := 0%float;
                       CacheStats.entriesByTool :=
                         [("zeta", 1%float); ("10", 2%float); ("9", 3%float)] |})
           (initial_state None)
           {| CacheStats.totalEntries := 6%float; CacheStats.hits := 0%float;
              CacheStats.misses := 0%float; CacheStats.hitRate := 0%float;
              CacheStats.entriesByTool :=
                [("zeta", 1%float); ("10", 2%float); ("9", 3%float)] |}).
  reflexivity.
Defined.

(** ** The client across calls *)

Lemma client_of_after_env (s : State) (u : string) :
  client_of (state_of (@set_server_env JsError u (after_create s))) = client_of s.
Proof.
  unfold client_of at 1. unfold state_of, set_server_env; simpl.
  now rewrite client_after_create.
Qed.

Lemma after_create_after_env (s : State) (u : string) :
  after_create (state_of (@set_server_env JsError u (after_create s)))
  = state_of (@set_server_env JsError u (after_create s)).
Proof.
  unfold after_create at 1. unfold state_of, set_server_env; simpl.
  now rewrite client_after_create.
Qed.

(** X11. Once one API call has been made, every later call in the process
    is sent through the same axios instance and builds no other one, even
    when [ARCHITECT_SERVER] has been changed in between: the base URL read
    at the first call stays in force. *)
Theorem api_calls_share_the_client `{JsRuntime} {T U} (http1 : Transport T)
    (http2 : Transport U) (m1 m2 : Method) (e1 e2 : string)
    (p1 p2 : option (list (string * value))) (b1 b2 : option value)
    (u : string) (s : State) :
  let run1 := request http1 m1 e1 p1 b1 s in
  let s2 := state_of (@set_server_env JsError u (state_of run1)) in
  let run2 := request http2 m2 e2 p2 b2 s2 in
  requests (trace_of run1) = [request_from s m1 e1 p1 b1]
  /\ requests (trace_of run2) = [request_from s m2 e2 p2 b2]
  /\ req_client (request_from s m2 e2 p2 b2) = req_client (request_from s m1 e1 p1 b1)
  /\ created (state_of run2) = created (state_of run1)
  /\ created (state_of run1) <= S (created s).
Proof.
  intros run1 s2 run2. subst run1 s2 run2.
  assert (Hs1 : forall V (h : Transport V) m e p b,
             state_of (request h m e p b s) = after_create s).
  { intros. rewrite request_run. destruct (h _); reflexivity. }
  rewrite Hs1.
  rewrite !request_run.
  rewrite after_create_after_env.
  assert (Hreq : request_from (state_of (@set_server_env JsError u (after_create s)))
                   m2 e2 p2 b2 = request_from s m2 e2 p2 b2).
  { unfold request_from. now rewrite client_of_after_env. }
  rewrite Hreq.
  repeat split.
  - destruct (http1 _); reflexivity.
  - destruct (http2 _); reflexivity.
  - destruct (http2 _); reflexivity.
  - unfold after_create. destruct (client s); simpl; lia.
Qed.

(** X12. The URL in the "Cannot connect" message is read from the
    environment when the error is formatted, not from the client that sent
    the request: after the variable has changed, a refused connection is
    reported for the new URL although the request went to the base URL
    captured earlier. *)
Theorem connection_error_names_current_url `{JsRuntime} {T} (http : Transport T)
    (method : Method) (endpoint : string) (params : option (list (string * value)))
    (body : option value) (u : string) (s : State)
    (response : option AxiosResponse.t) (m : string) :
  let s2 := state_of (@set_server_env JsError u (after_create s)) in
  u <> "" ->
  http (request_from s method endpoint params body)
  = Rejected (AxiosError (Some "ECONNREFUSED") response m) ->
  requests (trace_of (request http method endpoint params body s2))
  = [request_from s method endpoint params body]
  /\ baseURL (req_client (request_from s method endpoint params body))
     = baseURL (client_of s)
  /\ outcome_of (request http method endpoint params body s2)
     = Throw (new_Error ("Cannot connect to Architect server at " ++ u ++ "." ++ nl
                         ++ "Make sure the server is running or set ARCHITECT_SERVER env variable.")).
Proof.
  intros s2 Hu Hrej. subst s2.
  assert (Hreq : request_from (state_of (@set_server_env JsError u (after_create s)))
                   method endpoint params body = request_from s method endpoint params body).
  { unfold request_from. now rewrite client_of_after_env. }
  rewrite request_run, Hreq, Hrej, after_create_after_env.
  repeat split.
  unfold outcome_of, formatError, server_url, state_of, set_server_env; simpl.
  destruct u; [congruence | reflexivity].
Qed.

(** A client built for the default URL, then the variable set elsewhere. *)
Lemma connection_error_names_current_url_witness :
  baseURL (req_client (request_from (initial_state None) GET "overview" None None))
  = "http://localhost:3001/api"
  /\ outcome_of (@request plain_runtime value (fails connection_refused) GET "overview"
                   None None
                   (state_of (@set_server_env JsError "http://other.example:4000"
                                (after_create (initial_state None)))))
     = Throw (new_Error ("Cannot connect to Architect server at http://other.example:4000."
                         ++ nl
                         ++ "Make sure the server is running or set ARCHITECT_SERVER env variable.")).
Proof.
  split; [reflexivity |].
  apply (proj2 (proj2 (@connection_error_names_current_url plain_runtime value
                         (fails connection_refused) GET "overview" None None
                         "http://other.example:4000" (initial_state None) None
                         "connect ECONNREFUSED 127.0.0.1:3001"
                         ltac:(discriminate) eq_refl))).
Defined.

Lemma stamped_run_actions (acts : list Action) :
  forall s, stamped s -> stamped (snd (run_actions acts s)).
Proof.
  induction acts as [| a acts IH]; intros s Hs; simpl; [exact Hs |].
  destruct a as [url | |].
  - apply IH. exact Hs.
  - rewrite createClient_run.
    pose proof (IH _ (stamped_after_create s Hs)) as IH'.
    destruct (run_actions acts (after_create s)); exact IH'.
  - apply IH. intros c Hc. discriminate Hc.
Qed.

(** X13. In any interleaving of environment changes, [createClient] and
    [resetClient] calls, the number of axios instances built is at most one
    more than the number of resets, every instance handed out has a stamp
    below the construction counter, and the counter never decreases. *)
Theorem constructions_bounded_by_resets (acts : list Action) (s : State) :
  stamped s ->
  created s <= created (snd (run_actions acts s))
  /\ created (snd (run_actions acts s)) <= created s + 1 + resets acts
  /\ (client s <> None ->
      created (snd (run_actions acts s)) <= created s + resets acts)
  /\ Forall (fun c => instance_id c < created (snd (run_actions acts s)))
            (fst (run_actions acts s))
  /\ stamped (snd (run_actions acts s)).
Proof.
  revert s. induction acts as [| a acts IH]; intros s Hs.
  - simpl. repeat split; try lia; [constructor | exact Hs].
  - destruct a as [url | |]; unfold resets in *; simpl.
    + destruct (IH (state_of (@set_server_env JsError url s)) Hs)
        as (H1 & H2 & H3 & H4 & H5).
      repeat split; auto.
    + rewrite createClient_run.
      destruct (IH (after_create s) (stamped_after_create s Hs))
        as (H1 & H2 & H3 & H4 & H5).
      pose proof (fresh_stamp s Hs) as Hfresh.
      assert (Hc : client (after_create s) <> None)
        by (rewrite client_after_create; discriminate).
      specialize (H3 Hc).
      destruct (run_actions acts (after_create s)) as [cs s'] eqn:Hrun; simpl in *.
      assert (Hle : created s <= created (after_create s))
        by (unfold after_create; destruct (client s); simpl; lia).
      assert (Hle' : created (after_create s) <= S (created s))
        by (unfold after_create; destruct (client s); simpl; lia).
      repeat split; try lia; auto.
      * intros Hsome. unfold after_create in H3.
        destruct (client s); [exact H3 | congruence].
      * constructor; [lia | exact H4].
    + assert (Hs' : stamped (state_of (@resetClient JsError s)))
        by (intros c Hc; discriminate Hc).
      destruct (IH _ Hs') as (H1 & H2 & H3 & H4 & H5).
      simpl in *. repeat split; try lia; auto.
Qed.

(** Two constructions around one reset. *)
Lemma constructions_bounded_by_resets_witness :
  created (snd (run_actions [CreateClient; ResetClient; CreateClient; CreateClient]
                            (initial_state None))) <= 0 + 1 + 1.
Proof.
  destruct (constructions_bounded_by_resets
              [CreateClient; ResetClient; CreateClient; CreateClient]
              (initial_state None) (stamped_initial None)) as (_ & Hle & _).
  exact Hle.
Defined.

(** X14. With [--server <url>] given, the first request of the invocation
    goes to [<url>/api] when the URL is non-empty; [--server ""] sends it to
    the default [http://localhost:3001/api], whatever [ARCHITECT_SERVER]
    held before. *)
Theorem server_option_sets_base_url `{JsRuntime} {T} (http : Transport T) (url : string)
    (env : option string) (endpoint : string) (params : option (list (string * value))) :
  exists r,
    requests (trace_of (with_server_option (Some url) (apiGet http endpoint params)
                          (initial_state env))) = [r]
    /\ req_url r = endpoint
    /\ baseURL (req_client r)
       = (if String.eqb url "" then "http://localhost:3001" else url) ++ "/api".
Proof.
  unfold with_server_option, bind, set_server_env, apiGet; simpl.
  rewrite request_run.
  eexists. split; [| split].
  - destruct (http _); reflexivity.
  - reflexivity.
  - destruct url; reflexivity.
Qed.

(** ** More on the filters of [tools list] *)

Lemma filter_twice {A} (f : A -> bool) (l : list A) :
  filter f (filter f l) = filter f l.
Proof.
  rewrite filter_and. apply filter_ext. intros x. now destruct (f x).
Qed.

(** X15. The client-side filters of [tools list] only ever remove entries
    and keep the fetched order: the result is never longer than the
    fetched list and every entry shown was fetched.  With no flag (or only
    empty values) nothing is removed; filtering is idempotent, and two
    sets of flags applied one after the other give the same list in either
    order. *)
Theorem filter_tools_composes (o1 o2 : ListOpts.t) (d : list Tool.t) :
  List.length (filter_tools o1 d) <= List.length d
  /\ (forall t, In t (filter_tools o1 d) -> In t d)
  /\ (ListOpts.active o1 = false -> nonempty (ListOpts.category o1) = None ->
      nonempty (ListOpts.tag o1) = None -> filter_tools o1 d = d)
  /\ filter_tools o1 (filter_tools o1 d) = filter_tools o1 d
  /\ filter_tools o1 (filter_tools o2 d) = filter_tools o2 (filter_tools o1 d).
Proof.
  rewrite !filter_tools_conjunction.
  split; [apply filter_length_le |].
  split; [intros t Ht; apply filter_In in Ht; tauto |].
  split; [| split].
  - intros Ha Hc Hg.
    assert (Hall : forall t, supplied_predicates (effective o1) t = true).
    { intros t. unfold supplied_predicates, effective; simpl.
      now rewrite Ha, Hc, Hg. }
    induction d as [| t d IH]; simpl; [reflexivity |].
    now rewrite Hall, IH.
  - apply filter_twice.
  - rewrite !filter_and. apply filter_ext. intros t. apply andb_comm.
Qed.

(** [--category ""] alone removes nothing. *)
Lemma filter_tools_composes_witness :
  filter_tools {| ListOpts.active := false; ListOpts.category := Some "";
                  ListOpts.tag := None; ListOpts.json := false |}
               [example_tool "fetch" true (Some "net") None]
  = [example_tool "fetch" true (Some "net") None].
Proof.
  apply (proj1 (proj2 (proj2 (filter_tools_composes
           {| ListOpts.active := false; ListOpts.category := Some "";
              ListOpts.tag := None; ListOpts.json := false |}
           {| ListOpts.active := false; ListOpts.category := None;
              ListOpts.tag := None; ListOpts.json := false |}
           [example_tool "fetch" true (Some "net") None]))));
    reflexivity.
Defined.






(** ** More on the status and stats commands *)

Lemma includes_suffix (needle p s : string) :
  includes needle s = true -> includes needle (p ++ s) = true.
Proof.
  intros Hs. induction p as [| c p IH]; [exact Hs |].
  change (includes needle (String c p ++ s))
    with (if prefix needle (String c (p ++ s)) then true else includes needle (p ++ s)).
  rewrite IH. now destruct (prefix needle (String c (p ++ s))).
Qed.

(** X17. [server status] decides by the text of the error message: an HTTP
    error response whose [error] text contains "Cannot connect" is reported
    as "Server is not running" with the hint, although the server answered. *)
Theorem server_status_reads_the_message `{JsRuntime} (code : option string)
    (st : number) (body : list (string * value)) (txt m : string) (s : State) :
  code <> Some "ECONNREFUSED" -> code <> Some "ECONNRESET" ->
  lookup body "error" = Some (VString txt) ->
  includes "Cannot connect" txt = true ->
  printed (trace_of (server_status
                       (fails (AxiosError code
                                 (Some {| AxiosResponse.status := st;
                                          AxiosResponse.data := VObject body |}) m)) s))
  = [ Stderr (chalk red "✗" ++ " " ++ "Server is not running at "
              ++ chalk cyan (server_url s));
      Stdout (chalk dim "  Set ARCHITECT_SERVER env variable to change the URL") ]
  /\ outcome_of (server_status
                   (fails (AxiosError code
                             (Some {| AxiosResponse.status := st;
                                      AxiosResponse.data := VObject body |}) m)) s)
     = Exit 1.
Proof.
  intros H1 H2 Hbody Htxt.
  rewrite server_status_run. cbn [fails].
  assert (Hmsg : includes "Cannot connect"
                   (message (thrown_by (formatError s
                      (AxiosError code
                         (Some {| AxiosResponse.status := st;
                                  AxiosResponse.data := VObject body |}) m)))) = true).
  { unfold formatError.
    rewrite (code_is_other _ _ H1), (code_is_other _ _ H2).
    cbn [orb message AxiosResponse.data AxiosResponse.status optional_field].
    rewrite Hbody. unfold value_or.
    assert (Ht : ToBoolean (VString txt) = true).
    { destruct txt; [discriminate Htxt | reflexivity]. }
    rewrite Ht. unfold with_text. cbn [ToString thrown_by new_Error message].
    do 3 apply includes_suffix. exact Htxt. }
  rewrite Hmsg. split; reflexivity.
Qed.

(** A 502 answer of a proxy that could not reach its upstream. *)
Lemma server_status_reads_the_message_witness :
  printed (trace_of (@server_status plain_runtime
                       (fails (AxiosError (Some "ERR_BAD_RESPONSE")
                                 (Some {| AxiosResponse.status := 502%float;
                                          AxiosResponse.data :=
                                            VObject [("error",
                                                      VString "Cannot connect to upstream")] |})
                                 "Request failed with status code 502"))
                       (initial_state None)))
  = [ Stderr "✗ Server is not running at http://localhost:3001";
      Stdout "  Set ARCHITECT_SERVER env variable to change the URL" ].
Proof.
  apply (@server_status_reads_the_message plain_runtime (Some "ERR_BAD_RESPONSE")
           502%float [("error", VString "Cannot connect to upstream")]
           "Cannot connect to upstream" "Request failed with status code 502"
           (initial_state None));
    [discriminate | discriminate | reflexivity | reflexivity].
Defined.

Lemma lookup_absent {T} (d : list (string * T)) (n : string) :
  ~ In n (map fst d) -> lookup d n = None.
Proof.
  induction d as [| [k v] d IH]; simpl; [reflexivity |].
  intros Hn. destruct (String.eqb_spec k n) as [-> | _]; [tauto |].
  apply IH. tauto.
Qed.

Lemma filter_by_key {T} (d : list (string * T)) (n : string) (v : T) :
  NoDup (map fst d) -> lookup d n = Some v ->
  filter (fun kv => String.eqb (fst kv) n) d = [(n, v)].
Proof.
  induction d as [| [k x] d IH]; simpl; [discriminate |].
  intros Hnd Hl. inversion Hnd as [| ? ? Hk Hnd']; subst.
  destruct (String.eqb_spec k n) as [-> | Hne].
  - injection Hl as ->.
    now rewrite (lookup_none_filter d n (lookup_absent d n Hk)).
  - now apply IH.
Qed.

(** X18. For a name that is a key of the fetched statistics, the table of
    [tools stats <name>] has exactly one row, that tool's, and [--json]
    prints the one-property object with that same entry: the two outputs
    show the same tool. *)
Theorem stats_by_name_shows_one_tool `{JsRuntime} (d : list (string * Stats.t))
    (n : string) (st : Stats.t) (s : State) :
  n <> "" -> NoDup (map fst d) -> lookup d n = Some st ->
  tables (trace_of (tools_stats (answers d) (Some n) false s))
  = [(map (chalk cyan) ["Tool"; "Total"; "Success"; "Failed"; "Avg Duration"; "Last Run"],
      [map out.String_of_cell (stats_row (n, st))])]
  /\ printed (trace_of (tools_stats (answers d) (Some n) true s))
     = [Stdout (out.json_text (VObject [(n, to_value st)]))].
Proof.
  intros Hn Hnd Hl.
  destruct n as [| ch n]; [congruence |].
  unfold tools_stats, try_catch, bind. rewrite !fetch_answers.
  cbn [truthy_string]. unfold member.
  rewrite (Object_entries_filter_one _ d _ (filter_by_key d _ st Hnd Hl)), Hl.
  split; reflexivity.
Qed.

(** Statistics for one tool, asked for by name. *)
Lemma stats_by_name_shows_one_tool_witness :
  tables (trace_of (@tools_stats plain_runtime
                      (answers [("fetch", example_stats 4%float 3%float 1%float)])
                      (Some "fetch") false (initial_state None)))
  = [(["Tool"; "Total"; "Success"; "Failed"; "Avg Duration"; "Last Run"],
      [["fetch"; "4"; "3"; "1"; "10ms"; "never"]])].
Proof.
  apply (proj1 (@stats_by_name_shows_one_tool plain_runtime
                  [("fetch", example_stats 4%float 3%float 1%float)] "fetch"
                  (example_stats 4%float 3%float 1%float) (initial_state None)
                  ltac:(discriminate)
                  ltac:(repeat constructor; intros [])
                  eq_refl)).
Defined.
